(** * create_iris_kml: NDK bulletin to KML placemarks

    A shallow embedding of [create_iris_kml.py] and the properties of its
    record grouper, field extractor, classifier and artifact emitter.

    Python values are modelled as follows.
    - [str] is a list of Unicode code points ([N]); the file is decoded as
      UTF-8 before any of the code below sees it.
    - [float] is IEEE 754 binary64, carried by [spec_float] with
      [prec = 53] and [emax = 1024]; the integer literals of the source
      are compared through their exact binary64 value.
    - The builtin [float(...)] and the renderer [beachball(...)] are not
      code of this program: they are the fields of the class [Externals].
    - What reading the input file, [os.makedirs] and [kml.save] answer is
      given with the call of the function; the last two are outside every
      [try], and a run ends as one of the cases of [ending].
    - An f-string is kept as its list of fragments, so that no float
      formatting algorithm has to be chosen. *)

From Stdlib Require Import String Ascii DecimalString DecimalNat.
From Stdlib Require Import ZArith NArith PArith Bool Lia.
From Stdlib Require Import Floats.SpecFloat.
From Stdlib Require Import List Permutation Sorted.
Import ListNotations.

(** ** Strings *)

Module Str.

Definition char := N.
Definition str := list char.

(** An ASCII literal of the source as a [str]. *)
Definition lit (s : string) : str :=
  map N_of_ascii (list_ascii_of_string s).
Arguments lit s%_string.

Definition char_eqb (a b : char) : bool := N.eqb a b.

(** [str.isspace] for one character: the code points CPython lists as
    whitespace. *)
Definition isspace (c : char) : bool :=
  ((9 <=? c) && (c <=? 13) || (28 <=? c) && (c <=? 32)
   || (c =? 133) || (c =? 160) || (c =? 5760)
   || (8192 <=? c) && (c <=? 8202)
   || (c =? 8232) || (c =? 8233) || (c =? 8239) || (c =? 8287)
   || (c =? 12288))%N.

Fixpoint lstrip (s : str) : str :=
  match s with
  | [] => []
  | c :: s' => if isspace c then lstrip s' else s
  end.

(** [s.strip()] *)
Definition strip (s : str) : str := rev (lstrip (rev (lstrip s))).

(** [s.split()]: maximal runs of non-whitespace. [cur] is the run being
    read, most recent character first. *)
Fixpoint split_from (cur : str) (s : str) : list str :=
  match s with
  | [] => match cur with [] => [] | _ => [rev cur] end
  | c :: s' =>
      if isspace c
      then match cur with
           | [] => split_from [] s'
           | _ => rev cur :: split_from [] s'
           end
      else split_from (c :: cur) s'
  end.

Definition split (s : str) : list str := split_from [] s.

(** [s.startswith(p)] *)
Fixpoint startswith (s p : str) : bool :=
  match p, s with
  | [], _ => true
  | _ :: _, [] => false
  | x :: p', y :: s' => char_eqb x y && startswith s' p'
  end.

(** [s.startswith((p1, p2, ...))] *)
Definition startswith_any (s : str) (ps : list str) : bool :=
  existsb (startswith s) ps.

(** [sep.join(parts)] *)
Fixpoint join (sep : str) (parts : list str) : str :=
  match parts with
  | [] => []
  | [p] => p
  | p :: rest => p ++ sep ++ join sep rest
  end.

(** [str(n)] for a natural number. *)
Definition of_nat (n : nat) : str :=
  lit (NilZero.string_of_uint (Nat.to_uint n)).

End Str.

Import Str.

(** ** Sequences *)

(** [l[i]] with Python's negative indices; [None] stands for IndexError. *)
Definition py_index {A} (l : list A) (i : Z) : option A :=
  let n := Z.of_nat (List.length l) in
  if (0 <=? i)%Z then nth_error l (Z.to_nat i)
  else if (0 <=? n + i)%Z then nth_error l (Z.to_nat (n + i))
  else None.

(** [l[k:]] *)
Definition py_slice_from {A} (k : nat) (l : list A) : list A := skipn k l.

(** ** Floats *)

Definition pyfloat := spec_float.

Definition prec := 53%Z.
Definition emax := 1024%Z.

(** The binary64 value of an integer literal. *)
Definition float_of_Z (z : Z) : pyfloat := binary_normalize prec emax z 0 false.

Definition fle (x y : pyfloat) : bool := SFleb x y.
Definition feq (x y : pyfloat) : bool := SFeqb x y.
Definition fneg (x : pyfloat) : pyfloat := SFopp x.
Definition fmul (x y : pyfloat) : pyfloat := SFmul prec emax x y.

(** ** The classifier *)

Inductive fault_type := Normal | Thrust | StrikeSlip | Oblique.

Inductive color := green | red | blue | yellow.

(** The strings the source uses for the two enumerations. *)
Definition fault_label (t : fault_type) : str :=
  match t with
  | Normal => lit "Normal"
  | Thrust => lit "Thrust"
  | StrikeSlip => lit "Strike-Slip"
  | Oblique => lit "Oblique"
  end.

Definition color_name (c : color) : str :=
  match c with
  | green => lit "green"
  | red => lit "red"
  | blue => lit "blue"
  | yellow => lit "yellow"
  end.

Definition classify_and_color_by_rake (rake : pyfloat) : fault_type * color :=
  if fle (float_of_Z (-120)) rake && fle rake (float_of_Z (-60)) then
    (Normal, green)
  else if fle (float_of_Z 60) rake && fle rake (float_of_Z 120) then
    (Thrust, red)
  else if fle (float_of_Z (-30)) rake && fle rake (float_of_Z 30)
          || fle (float_of_Z 150) rake
          || fle rake (float_of_Z (-150)) then
    (StrikeSlip, blue)
  else
    (Oblique, yellow).

(** ** The output document *)

(** An f-string, kept as its fragments: literal text, [{x}] and [{x:.nf}]. *)
Inductive frag :=
| Text (s : str)
| Repr (x : pyfloat)
| Fixed (digits : nat) (x : pyfloat).

Definition fstring := list frag.

(** A simplekml point. A field the program has not assigned is [None]. *)
Record point := mkPoint {
  pt_name : fstring;
  pt_href : option str;
  pt_description : option fstring;
  pt_coords : option (pyfloat * pyfloat * pyfloat)
}.

Record folder := mkFolder {
  folder_name : str;
  folder_points : list point
}.

(** The folder tree: the four sub-folders of "Events with Focal Mechanisms"
    ([folder_map]) and the folder of events without a solution. *)
Record kml := mkKml {
  kml_name : str;
  kml_description : str;
  fm_parent_name : str;
  fm_normal : folder;
  fm_thrust : folder;
  fm_strike_slip : folder;
  fm_oblique : folder;
  events_without_fm_folder : folder
}.

Definition folder_map (k : kml) (t : fault_type) : folder :=
  match t with
  | Normal => fm_normal k
  | Thrust => fm_thrust k
  | StrikeSlip => fm_strike_slip k
  | Oblique => fm_oblique k
  end.

Definition set_folder_map (k : kml) (t : fault_type) (f : folder) : kml :=
  match t with
  | Normal =>
      mkKml (kml_name k) (kml_description k) (fm_parent_name k)
        f (fm_thrust k) (fm_strike_slip k) (fm_oblique k)
        (events_without_fm_folder k)
  | Thrust =>
      mkKml (kml_name k) (kml_description k) (fm_parent_name k)
        (fm_normal k) f (fm_strike_slip k) (fm_oblique k)
        (events_without_fm_folder k)
  | StrikeSlip =>
      mkKml (kml_name k) (kml_description k) (fm_parent_name k)
        (fm_normal k) (fm_thrust k) f (fm_oblique k)
        (events_without_fm_folder k)
  | Oblique =>
      mkKml (kml_name k) (kml_description k) (fm_parent_name k)
        (fm_normal k) (fm_thrust k) (fm_strike_slip k) f
        (events_without_fm_folder k)
  end.

Definition set_without_fm (k : kml) (f : folder) : kml :=
  mkKml (kml_name k) (kml_description k) (fm_parent_name k)
    (fm_normal k) (fm_thrust k) (fm_strike_slip k) (fm_oblique k) f.

(** [folder.newpoint(name=...)]: the new point goes last. *)
Definition newpoint (f : folder) (name : fstring) : folder :=
  mkFolder (folder_name f) (folder_points f ++ [mkPoint name None None None]).

(** Assignments through [pnt], the point [newpoint] returned last. *)
Fixpoint update_last (upd : point -> point) (ps : list point) : list point :=
  match ps with
  | [] => []
  | [p] => [upd p]
  | p :: rest => p :: update_last upd rest
  end.

Definition with_pnt (upd : point -> point) (f : folder) : folder :=
  mkFolder (folder_name f) (update_last upd (folder_points f)).

Definition set_href (h : str) (p : point) : point :=
  mkPoint (pt_name p) (Some h) (pt_description p) (pt_coords p).

Definition set_description (d : fstring) (p : point) : point :=
  mkPoint (pt_name p) (pt_href p) (Some d) (pt_coords p).

Definition set_coords (c : pyfloat * pyfloat * pyfloat) (p : point) : point :=
  mkPoint (pt_name p) (pt_href p) (pt_description p) (Some c).

(** The titles of the sub-folders, which are also the legend's labels. *)
Definition folder_title (t : fault_type) : str :=
  match t with
  | Normal => lit "Normal"
  | Thrust => lit "Thrust (Reverse)"
  | StrikeSlip => lit "Strike-Slip"
  | Oblique => lit "Oblique"
  end.

(** The legend of [kml.document.description], line by line. *)
Definition legend : list (color * fault_type) :=
  [(red, Normal); (blue, Thrust); (green, StrikeSlip); (yellow, Oblique)].

Definition quote : char := 34%N.
Definition black_square : char := 9632%N.

Definition legend_line (e : color * fault_type) : str :=
  lit "<br><font color=" ++ [quote] ++ color_name (fst e) ++ [quote]
  ++ lit ">" ++ [black_square] ++ lit "</font> " ++ folder_title (snd e).

Definition document_description : str :=
  lit "<![CDATA["
  ++ lit "<b>Beachball Color Legend (by Fault Type)</b><br>"
  ++ List.concat (map legend_line legend)
  ++ lit "]]>".

(** The color the legend shows for a fault type. *)
Fixpoint legend_lookup (t : fault_type) (l : list (color * fault_type))
  : option color :=
  match l with
  | [] => None
  | (c, t') :: rest =>
      if match t, t' with
         | Normal, Normal | Thrust, Thrust
         | StrikeSlip, StrikeSlip | Oblique, Oblique => true
         | _, _ => false
         end
      then Some c else legend_lookup t rest
  end.

Definition legend_color (t : fault_type) : option color :=
  legend_lookup t legend.

Definition image_dir : str := lit "assets".

(** [os.path.join] of a directory and a file name, with the POSIX
    separator. *)
Definition path_join (dir file : str) : str := dir ++ lit "/" ++ file.

Definition red_circle : str :=
  lit "http://maps.google.com/mapfiles/kml/paddle/red-circle.png".

Definition initial_kml (basename : str) : kml :=
  mkKml (lit "Focal Mechanisms from " ++ basename)
    document_description
    (lit "Events with Focal Mechanisms")
    (mkFolder (folder_title Normal) [])
    (mkFolder (folder_title Thrust) [])
    (mkFolder (folder_title StrikeSlip) [])
    (mkFolder (folder_title Oblique) [])
    (mkFolder (lit "Events without Focal Mechanisms") []).

(** ** The record grouper *)

Definition sentinels : list str := [lit "PDEQ"; lit "PDEW"; lit "SWEQ"].

Definition is_sentinel (clean_line : str) : bool :=
  startswith_any clean_line sentinels.

Definition nonempty {A} (l : list A) : bool :=
  match l with [] => false | _ => true end.

(** One turn of the grouping loop on the pair [(events, current_event)]. *)
Definition group_step (st : list (list str) * list str) (line : str)
  : list (list str) * list str :=
  let '(events, current_event) := st in
  let clean_line := strip line in
  if negb (nonempty clean_line) then st
  else if is_sentinel clean_line && nonempty current_event
       then (events ++ [current_event], [clean_line])
       else (events, current_event ++ [clean_line]).

Definition group_lines (lines : list str) : list (list str) :=
  let '(events, current_event) := fold_left group_step lines ([], []) in
  if nonempty current_event then events ++ [current_event] else events.

(** ** Per-event processing *)

(** The local variables of [create_kml_from_custom_ndk] that outlive one
    turn of the event loop and are read again by the [except] block or
    assigned from the tokens. [None] is an unbound variable. *)
Record locals := mkLocals {
  time_str : option str;
  lat : option pyfloat;
  lon : option pyfloat;
  depth : option pyfloat;
  mag : option pyfloat;
  location : option str;
  strike : option pyfloat;
  dip : option pyfloat;
  rake : option pyfloat
}.

Definition unbound : locals :=
  mkLocals None None None None None None None None None.

(** One call of [beachball]. *)
Record beachball_call := mkCall {
  call_mechanism : pyfloat * pyfloat * pyfloat;
  call_size : Z;
  call_outfile : str;
  call_facecolor : color;
  call_edgecolor : str
}.

Record state := mkState {
  vars : locals;
  doc : kml;
  beachball_calls : list beachball_call;
  events_processed_with_fm : nat;
  events_processed_without_fm : nat;
  events_skipped : nat
}.

Definition initial_state (basename : str) : state :=
  mkState unbound (initial_kml basename) [] 0 0 0.

(** The sequences the loop body indexes and the variables it reads. *)
Inductive seq_name := EventLines | PdeParts | SdrParts.

Inductive var_name := VTimeStr | VLat | VLon | VDepth | VMag.

(** The exceptions the loop body can raise; all derive from [Exception]. *)
Inductive exn :=
| IndexError (s : seq_name)
| ValueError_float (token : str)
| ValueError_no_focal_mechanism
| UnboundLocalError (v : var_name)
| BeachballError.

Inductive outcome (A : Type) :=
| Ok (a : A)
| Raise (e : exn).
Arguments Ok {A} a.
Arguments Raise {A} e.

(** Statements: they change the state and end normally or by an
    exception; what was done before the exception stays done. *)
Definition M (A : Type) := state -> outcome A * state.

Definition ret {A} (a : A) : M A := fun st => (Ok a, st).

Definition bind {A B} (m : M A) (k : A -> M B) : M B :=
  fun st =>
    match m st with
    | (Ok a, st') => k a st'
    | (Raise e, st') => (Raise e, st')
    end.

Definition raise {A} (e : exn) : M A := fun st => (Raise e, st).

Definition modify (f : state -> state) : M unit := fun st => (Ok tt, f st).

Notation "x <- m ;; k" := (bind m (fun x => k))
  (at level 61, m at next level, right associativity).
Notation "m ;;; k" := (bind m (fun _ => k))
  (at level 61, right associativity).

Definition set_vars (f : locals -> locals) : M unit :=
  modify (fun st =>
    mkState (f (vars st)) (doc st) (beachball_calls st)
      (events_processed_with_fm st) (events_processed_without_fm st)
      (events_skipped st)).

Definition set_doc (f : kml -> kml) : M unit :=
  modify (fun st =>
    mkState (vars st) (f (doc st)) (beachball_calls st)
      (events_processed_with_fm st) (events_processed_without_fm st)
      (events_skipped st)).

Definition assign_time_str (v : str) : M unit :=
  set_vars (fun l => mkLocals (Some v) (lat l) (lon l) (depth l) (mag l)
                       (location l) (strike l) (dip l) (rake l)).
Definition assign_lat (v : pyfloat) : M unit :=
  set_vars (fun l => mkLocals (time_str l) (Some v) (lon l) (depth l) (mag l)
                       (location l) (strike l) (dip l) (rake l)).
Definition assign_lon (v : pyfloat) : M unit :=
  set_vars (fun l => mkLocals (time_str l) (lat l) (Some v) (depth l) (mag l)
                       (location l) (strike l) (dip l) (rake l)).
Definition assign_depth (v : pyfloat) : M unit :=
  set_vars (fun l => mkLocals (time_str l) (lat l) (lon l) (Some v) (mag l)
                       (location l) (strike l) (dip l) (rake l)).
Definition assign_mag (v : pyfloat) : M unit :=
  set_vars (fun l => mkLocals (time_str l) (lat l) (lon l) (depth l) (Some v)
                       (location l) (strike l) (dip l) (rake l)).
Definition assign_location (v : str) : M unit :=
  set_vars (fun l => mkLocals (time_str l) (lat l) (lon l) (depth l) (mag l)
                       (Some v) (strike l) (dip l) (rake l)).
Definition assign_strike (v : pyfloat) : M unit :=
  set_vars (fun l => mkLocals (time_str l) (lat l) (lon l) (depth l) (mag l)
                       (location l) (Some v) (dip l) (rake l)).
Definition assign_dip (v : pyfloat) : M unit :=
  set_vars (fun l => mkLocals (time_str l) (lat l) (lon l) (depth l) (mag l)
                       (location l) (strike l) (Some v) (rake l)).
Definition assign_rake (v : pyfloat) : M unit :=
  set_vars (fun l => mkLocals (time_str l) (lat l) (lon l) (depth l) (mag l)
                       (location l) (strike l) (dip l) (Some v)).

(** Reading a local variable: UnboundLocalError when it was never
    assigned. *)
Definition read {A} (v : var_name) (field : locals -> option A) : M A :=
  fun st =>
    match field (vars st) with
    | Some a => (Ok a, st)
    | None => (Raise (UnboundLocalError v), st)
    end.

(** [seq[i]] *)
Definition index {A} (s : seq_name) (l : list A) (i : Z) : M A :=
  match py_index l i with
  | Some a => ret a
  | None => raise (IndexError s)
  end.

Definition incr_with_fm : M unit :=
  modify (fun st =>
    mkState (vars st) (doc st) (beachball_calls st)
      (S (events_processed_with_fm st)) (events_processed_without_fm st)
      (events_skipped st)).

Definition incr_without_fm : M unit :=
  modify (fun st =>
    mkState (vars st) (doc st) (beachball_calls st)
      (events_processed_with_fm st) (S (events_processed_without_fm st))
      (events_skipped st)).

Definition incr_skipped (st : state) : state :=
  mkState (vars st) (doc st) (beachball_calls st)
    (events_processed_with_fm st) (events_processed_without_fm st)
    (S (events_skipped st)).

(** [-depth * 1000]: the depth in kilometres, negated, in metres. *)
Definition altitude (depth : pyfloat) : pyfloat :=
  fmul (fneg depth) (float_of_Z 1000).

Definition fm_description (fault_type : fault_type) (time_str : str)
    (mag depth lat lon strike dip rake : pyfloat) : fstring :=
  [ Text (lit "<b>Fault Type:</b> "); Text (fault_label fault_type);
    Text (lit "<br/>");
    Text (lit "<b>Time:</b> "); Text time_str; Text (lit " UTC<br/>");
    Text (lit "<b>Magnitude:</b> "); Repr mag; Text (lit "<br/>");
    Text (lit "<b>Depth:</b> "); Fixed 1 depth; Text (lit " km<br/>");
    Text (lit "<b>Location:</b> "); Fixed 3 lat; Text (lit ", ");
    Fixed 3 lon; Text (lit "<br/>");
    Text (lit "<b>Strike/Dip/Rake:</b> "); Repr strike; Text (lit "/");
    Repr dip; Text (lit "/"); Repr rake ].

Definition no_fm_description (time_str : str) (mag depth lat lon : pyfloat)
  : fstring :=
  [ Text (lit "<b>Time:</b> "); Text time_str; Text (lit " UTC<br/>");
    Text (lit "<b>Magnitude:</b> "); Repr mag; Text (lit "<br/>");
    Text (lit "<b>Depth:</b> "); Fixed 1 depth; Text (lit " km<br/>");
    Text (lit "<b>Location:</b> "); Fixed 3 lat; Text (lit ", ");
    Fixed 3 lon; Text (lit "<br/>");
    Text (lit "<b>Focal Mechanism:</b> Not available") ].

(** How a call of the function ends: by the [return] of line 43, nothing
    written; by the exception of [os.makedirs] leaving the function; by
    the exception of [kml.save] leaving it, in the state the loop ended
    in and nothing written; or by its end, with the document of that state
    written. *)
Inductive ending :=
| NotRead
| MakedirsRaised
| SaveRaised (st : state)
| Saved (st : state).

(** What the program takes from outside: the builtin [float(token)],
    with [None] for ValueError, and whether a call of the external
    renderer [beachball] raises. *)
Class Externals := {
  float_of_str : str -> option pyfloat;
  beachball_raises : beachball_call -> bool
}.

Section Processing.

Context {ext : Externals}.

Definition float (token : str) : M pyfloat :=
  match float_of_str token with
  | Some x => ret x
  | None => raise (ValueError_float token)
  end.

Definition beachball (c : beachball_call) : M unit :=
  fun st =>
    let st' :=
      mkState (vars st) (doc st) (beachball_calls st ++ [c])
        (events_processed_with_fm st) (events_processed_without_fm st)
        (events_skipped st) in
    if beachball_raises c then (Raise BeachballError, st') else (Ok tt, st').

(** Lines 105 to 111: the fields of the first line. *)
Definition extract_pde (pde_parts : list str)
  : M (str * pyfloat * pyfloat * pyfloat * pyfloat) :=
  p1 <- index PdeParts pde_parts 1 ;;
  p2 <- index PdeParts pde_parts 2 ;;
  let time_str := p1 ++ lit " " ++ p2 in
  assign_time_str time_str ;;;
  p3 <- index PdeParts pde_parts 3 ;;
  lat <- float p3 ;;
  assign_lat lat ;;;
  p4 <- index PdeParts pde_parts 4 ;;
  lon <- float p4 ;;
  assign_lon lon ;;;
  p5 <- index PdeParts pde_parts 5 ;;
  depth <- float p5 ;;
  assign_depth depth ;;;
  p7 <- index PdeParts pde_parts 7 ;;
  mag <- float p7 ;;
  assign_mag mag ;;;
  assign_location (join (lit " ") (py_slice_from 8 pde_parts)) ;;;
  ret (time_str, lat, lon, depth, mag).

(** Lines 116 to 118: strike, dip and rake of the fifth line. *)
Definition extract_sdr (sdr_parts : list str)
  : M (pyfloat * pyfloat * pyfloat) :=
  s6 <- index SdrParts sdr_parts (-6) ;;
  strike <- float s6 ;;
  assign_strike strike ;;;
  s5 <- index SdrParts sdr_parts (-5) ;;
  dip <- float s5 ;;
  assign_dip dip ;;;
  s4 <- index SdrParts sdr_parts (-4) ;;
  rake <- float s4 ;;
  assign_rake rake ;;;
  ret (strike, dip, rake).

Definition beachball_filename (i : nat) : str :=
  path_join image_dir (lit "event_" ++ of_nat (i + 1) ++ lit "_fm.png").

(** The point of an event with a focal mechanism, once every field is
    assigned. *)
Definition fm_point (i : nat) (fault_type : fault_type) (time_str : str)
    (lat lon depth mag strike dip rake : pyfloat) : point :=
  mkPoint [Text (lit "M "); Repr mag]
    (Some (beachball_filename i))
    (Some (fm_description fault_type time_str mag depth lat lon
             strike dip rake))
    (Some (lon, lat, altitude depth)).

(** Lines 123 to 141: the diagram and the point in the folder of the
    fault type. *)
Definition emit_with_fm (i : nat) (time_str : str)
    (lat lon depth mag strike dip rake : pyfloat) : M unit :=
  let '(fault_type, beachball_color) := classify_and_color_by_rake rake in
  beachball (mkCall (strike, dip, rake) 200 (beachball_filename i)
               beachball_color (lit "black")) ;;;
  let target k f :=
    set_folder_map k fault_type (f (folder_map k fault_type)) in
  set_doc (fun k =>
    target k (fun f => newpoint f [Text (lit "M "); Repr mag])) ;;;
  set_doc (fun k => target k (with_pnt (set_href (beachball_filename i)))) ;;;
  set_doc (fun k => target k (with_pnt (set_description
    (fm_description fault_type time_str mag depth lat lon
       strike dip rake)))) ;;;
  set_doc (fun k =>
    target k (with_pnt (set_coords (lon, lat, altitude depth)))) ;;;
  incr_with_fm.

(** The [try] block, after the guard on the number of lines. [i] is the
    index [enumerate] gives the event. *)
Definition try_body (i : nat) (event_lines : list str) : M unit :=
  pde_line <- index EventLines event_lines 0 ;;
  sdr_line <- index EventLines event_lines 4 ;;
  let pde_parts := split pde_line in
  pde <- extract_pde pde_parts ;;
  let '(time_str, lat, lon, depth, mag) := pde in
  let sdr_parts := split sdr_line in
  if (6 <=? List.length sdr_parts)%nat then
    sdr <- extract_sdr sdr_parts ;;
    let '(strike, dip, rake) := sdr in
    if feq strike (float_of_Z 0) && feq dip (float_of_Z 0) then
      raise ValueError_no_focal_mechanism
    else
      emit_with_fm i time_str lat lon depth mag strike dip rake
  else
    raise ValueError_no_focal_mechanism.

(** The point of an event without a focal mechanism, once every field is
    assigned. *)
Definition no_fm_point (time_str : str) (lat lon depth mag : pyfloat)
  : point :=
  mkPoint [Text (lit "M "); Repr mag]
    (Some red_circle)
    (Some (no_fm_description time_str mag depth lat lon))
    (Some (lon, lat, altitude depth)).

(** The [except Exception] block, itself inside a [try]. *)
Definition fallback : M unit :=
  let target k f := set_without_fm k (f (events_without_fm_folder k)) in
  mag0 <- read VMag mag ;;
  set_doc (fun k =>
    target k (fun f => newpoint f [Text (lit "M "); Repr mag0])) ;;;
  set_doc (fun k => target k (with_pnt (set_href red_circle))) ;;;
  time_str1 <- read VTimeStr time_str ;;
  mag1 <- read VMag mag ;;
  depth1 <- read VDepth depth ;;
  lat1 <- read VLat lat ;;
  lon1 <- read VLon lon ;;
  set_doc (fun k => target k (with_pnt (set_description
    (no_fm_description time_str1 mag1 depth1 lat1 lon1)))) ;;;
  lon2 <- read VLon lon ;;
  lat2 <- read VLat lat ;;
  depth2 <- read VDepth depth ;;
  set_doc (fun k =>
    target k (with_pnt (set_coords (lon2, lat2, altitude depth2)))) ;;;
  incr_without_fm.

(** One turn of the event loop. *)
Definition process_event (i : nat) (event_lines : list str) (st : state)
  : state :=
  if (List.length event_lines <? 5)%nat then incr_skipped st
  else
    match try_body i event_lines st with
    | (Ok _, st1) => st1
    | (Raise _, st1) =>
        match fallback st1 with
        | (Ok _, st2) => st2
        | (Raise _, st2) => incr_skipped st2
        end
    end.

(** [for i, event_lines in enumerate(events)], from index [i]. *)
Fixpoint process_events (i : nat) (events : list (list str)) (st : state)
  : state :=
  match events with
  | [] => st
  | event_lines :: rest =>
      process_events (S i) rest (process_event i event_lines st)
  end.

(** The whole function. What the operating system and the writer answer
    is given with the call: [readlines] is what reading the input file
    gave, [None] when it raised; [makedirs_raises] says whether
    [os.makedirs] of line 58 raised; [save_raises] says of a document
    whether [kml.save] of line 160 raises on it. Neither of the last two
    calls is inside a [try]. *)
Definition create_kml_from_custom_ndk (basename : str)
    (readlines : option (list str)) (makedirs_raises : bool)
    (save_raises : kml -> bool) : ending :=
  match readlines with
  | None => NotRead
  | Some lines =>
      if makedirs_raises then MakedirsRaised
      else
        let st :=
          process_events 0 (group_lines lines) (initial_state basename) in
        if save_raises (doc st) then SaveRaised st else Saved st
  end.

End Processing.

(** ** A reference environment for concrete runs *)

Module Sample.

Definition digit_val (c : char) : option Z :=
  if ((48 <=? c) && (c <=? 57))%N then Some (Z.of_N c - 48)%Z else None.

(** Reads a run of ASCII digits: the number read so far, how many digits
    were read, and the rest of the input. *)
Fixpoint read_digits (acc : Z) (n : nat) (s : str) : Z * nat * str :=
  match s with
  | [] => (acc, n, [])
  | c :: s' =>
      match digit_val c with
      | Some d => read_digits (10 * acc + d)%Z (S n) s'
      | None => (acc, n, s)
      end
  end.

Definition minus_sign : char := 45%N.
Definition plus_sign : char := 43%N.
Definition point_char : char := 46%N.

(** [float] on plain decimal literals, [sign digits . digits]: the
    quotient of two exact integers, rounded once. It agrees with the
    builtin on such literals of at most 15 significant digits, and rejects
    everything else. *)
Definition dec_float (s : str) : option pyfloat :=
  let '(negative, s1) :=
    match s with
    | c :: r => if (c =? minus_sign)%N then (true, r)
                else if (c =? plus_sign)%N then (false, r)
                else (false, s)
    | [] => (false, s)
    end in
  let '(int_part, n1, s2) := read_digits 0 0 s1 in
  let '(m, n2, s3) :=
    match s2 with
    | c :: r => if (c =? point_char)%N then read_digits int_part 0 r
                else (int_part, 0%nat, s2)
    | [] => (int_part, 0%nat, s2)
    end in
  match s3 with
  | [] =>
      if (n1 + n2 =? 0)%nat then None
      else
        let v := SFdiv prec emax (float_of_Z m)
                   (float_of_Z (10 ^ Z.of_nat n2)) in
        Some (if negative then fneg v else v)
  | _ :: _ => None
  end.

(** A renderer that always succeeds. *)
Definition renders (c : beachball_call) : bool := false.

(** Decimal literals and a working renderer. *)
Definition externals : Externals :=
  {| float_of_str := dec_float; beachball_raises := renders |}.

(** A complete event with a thrust mechanism. *)
Definition thrust_event : list str :=
  [ lit "PDEQ 2020/01/02 03:04:05.6 10.5 -20.25 33.0 5.5 6.0 NEAR SOMEWHERE";
    lit "C202001020304A B: 1 2 3 S: 4 5 6";
    lit "CENTROID: 1.0 0.1 10.5 0.01 -20.25 0.01 33.0 0.5 FREE S-1";
    lit "24 1.0 0.1 2.0 0.1 3.0 0.1 4.0 0.1 5.0 0.1 6.0 0.1";
    lit "V10 1.0 10 100 2.0 20 200 3.0 30 300 1.0e24 200 45 90 20 45 90" ].

Definition newline : char := 10%N.

(** What [readlines] returns for a file with these lines. *)
Definition file_of (lines : list str) : list str :=
  map (fun l => l ++ [newline]) lines.

(** The same event with a latitude that is not a number. *)
Definition bad_latitude_event : list str :=
  [ lit "PDEQ 2020/01/02 03:04:05.6 abc -20.25 33.0 5.5 6.0 NEAR SOMEWHERE";
    lit "C202001020304A B: 1 2 3 S: 4 5 6";
    lit "CENTROID: 1.0 0.1 10.5 0.01 -20.25 0.01 33.0 0.5 FREE S-1";
    lit "24 1.0 0.1 2.0 0.1 3.0 0.1 4.0 0.1 5.0 0.1 6.0 0.1";
    lit "V10 1.0 10 100 2.0 20 200 3.0 30 300 1.0e24 200 45 90 20 45 90" ].

(** The same event with a fifth line of four tokens. *)
Definition no_mechanism_event : list str :=
  [ lit "PDEQ 2020/01/02 03:04:05.6 10.5 -20.25 33.0 5.5 6.0 NEAR SOMEWHERE";
    lit "C202001020304A B: 1 2 3 S: 4 5 6";
    lit "CENTROID: 1.0 0.1 10.5 0.01 -20.25 0.01 33.0 0.5 FREE S-1";
    lit "24 1.0 0.1 2.0 0.1 3.0 0.1 4.0 0.1 5.0 0.1 6.0 0.1";
    lit "V10 no solution available" ].

(** The same again with a latitude that is not a number either. *)
Definition bad_latitude_no_mechanism_event : list str :=
  [ lit "PDEQ 2020/01/02 03:04:05.6 abc -20.25 33.0 5.5 6.0 NEAR SOMEWHERE";
    lit "C202001020304A B: 1 2 3 S: 4 5 6";
    lit "CENTROID: 1.0 0.1 10.5 0.01 -20.25 0.01 33.0 0.5 FREE S-1";
    lit "24 1.0 0.1 2.0 0.1 3.0 0.1 4.0 0.1 5.0 0.1 6.0 0.1";
    lit "V10 no solution available" ].


(** A later event with a latitude that is not a number and another
    time. *)
Definition later_bad_latitude_event : list str :=
  [ lit "PDEQ 2021/03/04 05:06:07.8 abc 99.5 700.0 5.5 9.0 FAR AWAY";
    lit "C202103040506A B: 1 2 3 S: 4 5 6";
    lit "CENTROID: 1.0 0.1 10.5 0.01 -20.25 0.01 33.0 0.5 FREE S-1";
    lit "24 1.0 0.1 2.0 0.1 3.0 0.1 4.0 0.1 5.0 0.1 6.0 0.1";
    lit "V10 1.0 10 100 2.0 20 200 3.0 30 300 1.0e24 200 45 90 20 45 90" ].

(** A record cut short after its first line. *)
Definition short_event : list str :=
  [ lit "PDEQ 2020/01/02 03:04:05.6 10.5 -20.25 33.0 5.5 6.0 NEAR SOMEWHERE" ].

(** A catalog whose first line is a title, before the first record. *)
Definition titled_file : list str :=
  file_of [ lit "CATALOG EXPORT"; lit "PDEQ 2020/01/02 03:04:05.6" ].

(** The value [float] gives a decimal literal. *)
Definition float_lit (s : string) : pyfloat :=
  match dec_float (lit s) with
  | Some x => x
  | None => S754_nan
  end.
Arguments float_lit s%_string.

Definition sample_time : str := lit "2020/01/02 03:04:05.6".

Definition basename : str := lit "bundle.txt".

Definition start : state := initial_state basename.

(** A writer that accepts every document. *)
Definition saves (k : kml) : bool := false.

(** A run in which the file is read, the folder of the images is made and
    the document is accepted. *)
Definition run (lines : list str) : ending :=
  create_kml_from_custom_ndk (ext := externals) basename (Some lines)
    false saves.

End Sample.

(** * Specification vocabulary *)

(** ** Rake ranges *)

(** [lo <= x <= hi] for integer bounds. *)
Definition in_range (lo hi : Z) (x : pyfloat) : bool :=
  fle (float_of_Z lo) x && fle x (float_of_Z hi).

(** [-30 <= x <= 30] or [|x| >= 150]. *)
Definition strike_slip_range (x : pyfloat) : bool :=
  in_range (-30) 30 x || fle (float_of_Z 150) (SFabs x).

(** ** Chunks *)

(** The stripped, non-empty lines of the input, in order. *)
Definition clean_lines (lines : list str) : list str :=
  filter nonempty (map strip lines).

Definition starts_with_sentinel (chunk : list str) : Prop :=
  match chunk with
  | l :: _ => is_sentinel l = true
  | [] => False
  end.

(** No line of the chunk after its first begins with a sentinel. *)
Definition no_sentinel_inside (chunk : list str) : Prop :=
  Forall (fun l => is_sentinel l = false) (tl chunk).

(** The state of the grouping loop after the lines [ls]. *)
Record grouping (ls : list str) (events : list (list str))
    (current_event : list str) : Prop := {
  grp_concat : concat events ++ current_event = clean_lines ls;
  grp_nonempty : Forall (fun c => c <> []) events;
  grp_inside : Forall no_sentinel_inside (events ++ [current_event]);
  grp_heads : Forall starts_with_sentinel (tl (events ++ [current_event]))
}.

(** ** Placemarks and counters *)

Definition add_point (f : folder) (p : point) : folder :=
  mkFolder (folder_name f) (folder_points f ++ [p]).

(** What one event adds to the document. *)
Inductive emission :=
| InFaultFolder (t : fault_type) (p : point)
| InFallback (p : point)
| Nothing.

Definition apply_emission (e : emission) (k : kml) : kml :=
  match e with
  | InFaultFolder t p => set_folder_map k t (add_point (folder_map k t) p)
  | InFallback p =>
      set_without_fm k (add_point (events_without_fm_folder k) p)
  | Nothing => k
  end.

Definition counters (st : state) : nat * nat * nat :=
  (events_processed_with_fm st, events_processed_without_fm st,
   events_skipped st).

Definition count_emission (e : emission) (c : nat * nat * nat)
  : nat * nat * nat :=
  let '(w, f, s) := c in
  match e with
  | InFaultFolder _ _ => (S w, f, s)
  | InFallback _ => (w, S f, s)
  | Nothing => (w, f, S s)
  end.

(** The step from [st] to [st'] added [e] to the document and counted it
    in the counter of its kind. *)
Definition emitted (e : emission) (st st' : state) : Prop :=
  doc st' = apply_emission e (doc st)
  /\ counters st' = count_emission e (counters st).

Definition fm_points (k : kml) : list point :=
  folder_points (fm_normal k) ++ folder_points (fm_thrust k)
  ++ folder_points (fm_strike_slip k) ++ folder_points (fm_oblique k).

Definition no_fm_points (k : kml) : list point :=
  folder_points (events_without_fm_folder k).

Definition all_points (k : kml) : list point :=
  fm_points k ++ no_fm_points k.

(** A placemark at [(longitude, latitude, -depth * 1000)]. *)
Definition placed (p : point) : Prop :=
  exists lo la de,
    pt_coords p = Some (lo, la, fmul (fneg de) (float_of_Z 1000)).

(** ** Local variables *)

(** The variables the [except] block reads. *)
Definition display (l : locals) :=
  (time_str l, lat l, lon l, depth l, mag l).

Definition display_bound (l : locals) : Prop :=
  exists ts la lo de ma,
    display l = (Some ts, Some la, Some lo, Some de, Some ma).

(** [mag] is assigned last: once it is bound, so are the others. *)
Definition wf_locals (l : locals) : Prop :=
  mag l = None \/ display_bound l.

Definition same_output (st st' : state) : Prop :=
  doc st' = doc st /\ beachball_calls st' = beachball_calls st
  /\ counters st' = counters st.

Definition sdr_unchanged (l l1 : locals) : Prop :=
  display l1 = display l /\ location l1 = location l.

(** ** How a run ends *)

(** The state in which [kml.save] was called. *)
Definition at_save (e : ending) : option state :=
  match e with
  | SaveRaised st | Saved st => Some st
  | NotRead | MakedirsRaised => None
  end.

(** The document written. *)
Definition written (e : ending) : option kml :=
  match e with
  | Saved st => Some (doc st)
  | _ => None
  end.

(** ** Renderer calls *)

Definition the_call (i : nat) (strike dip rake : pyfloat) : beachball_call :=
  mkCall (strike, dip, rake) 200 (beachball_filename i)
    (snd (classify_and_color_by_rake rake)) (lit "black").

Definition call_rake (c : beachball_call) : pyfloat :=
  let '(_, _, r) := call_mechanism c in r.

(** The diagram was requested in the color of its rake's class. *)
Definition call_colored (c : beachball_call) : Prop :=
  call_facecolor c = snd (classify_and_color_by_rake (call_rake c)).

Definition calls_grow (i : nat) (st st' : state) : Prop :=
  beachball_calls st' = beachball_calls st
  \/ exists s d r,
       beachball_calls st' = beachball_calls st ++ [the_call i s d r].

(** ** What the loop body finds in an event *)

Section Outcomes.

Context {ext : Externals}.

(** The first line of the event yields these display fields: time from
    tokens 1 and 2, latitude, longitude, depth and magnitude from tokens
    3, 4, 5 and 7. *)
Definition pde_of (event_lines : list str) (ts : str)
    (la lo de ma : pyfloat) : Prop :=
  exists pde_line p1 p2 p3 p4 p5 p7,
    py_index event_lines 0 = Some pde_line
    /\ py_index (split pde_line) 1 = Some p1
    /\ py_index (split pde_line) 2 = Some p2
    /\ py_index (split pde_line) 3 = Some p3
    /\ py_index (split pde_line) 4 = Some p4
    /\ py_index (split pde_line) 5 = Some p5
    /\ py_index (split pde_line) 7 = Some p7
    /\ ts = p1 ++ lit " " ++ p2
    /\ float_of_str p3 = Some la /\ float_of_str p4 = Some lo
    /\ float_of_str p5 = Some de /\ float_of_str p7 = Some ma.

(** The fifth line of the event yields this strike, dip and rake, from
    its 6th-, 5th- and 4th-from-last tokens. *)
Definition sdr_of (event_lines : list str) (s d r : pyfloat) : Prop :=
  exists sdr_line s6 s5 s4,
    py_index event_lines 4 = Some sdr_line
    /\ py_index (split sdr_line) (-6) = Some s6
    /\ py_index (split sdr_line) (-5) = Some s5
    /\ py_index (split sdr_line) (-4) = Some s4
    /\ float_of_str s6 = Some s /\ float_of_str s5 = Some d
    /\ float_of_str s4 = Some r.

(** The fifth line of the event gives no usable mechanism: fewer than 6
    tokens, or one of the three tokens is not a number, or strike and dip
    are both zero. *)
Definition no_mechanism (event_lines : list str) : Prop :=
  exists sdr_line,
    py_index event_lines 4 = Some sdr_line
    /\ ((List.length (split sdr_line) < 6)%nat
        \/ (exists k tok,
              In k [-6; -5; -4]%Z
              /\ py_index (split sdr_line) k = Some tok
              /\ float_of_str tok = None)
        \/ (exists s6 s5 s d,
              py_index (split sdr_line) (-6) = Some s6
              /\ py_index (split sdr_line) (-5) = Some s5
              /\ float_of_str s6 = Some s /\ float_of_str s5 = Some d
              /\ feq s (float_of_Z 0) = true
              /\ feq d (float_of_Z 0) = true)).

(** What the [try] block found in a complete event, and what it did. *)
Record fm_event (i : nat) (event_lines : list str) (st st1 : state)
    (ts : str) (la lo de ma s d r : pyfloat) : Prop := {
  fm_pde : pde_of event_lines ts la lo de ma;
  fm_sdr : sdr_of event_lines s d r;
  fm_nonzero : feq s (float_of_Z 0) && feq d (float_of_Z 0) = false;
  fm_rendered : beachball_raises (the_call i s d r) = false;
  fm_display :
    display (vars st1) = (Some ts, Some la, Some lo, Some de, Some ma);
  fm_rake : rake (vars st1) = Some r;
  fm_emitted :
    emitted
      (InFaultFolder (fst (classify_and_color_by_rake r))
         (fm_point i (fst (classify_and_color_by_rake r))
            ts la lo de ma s d r))
      st st1;
  fm_calls : beachball_calls st1 = beachball_calls st ++ [the_call i s d r]
}.

(** What holds when the [try] block ends by exception [e] in [st1]. *)
Definition raise_post (i : nat) (event_lines : list str) (st : state)
    (e : exn) (st1 : state) : Prop :=
  doc st1 = doc st /\ counters st1 = counters st
  /\ (wf_locals (vars st) -> wf_locals (vars st1))
  /\ (beachball_calls st1 = beachball_calls st
      \/ exists s d r,
           beachball_calls st1 = beachball_calls st ++ [the_call i s d r]
           /\ rake (vars st1) = Some r)
  /\ e <> IndexError SdrParts
  /\ ((5 <= List.length event_lines)%nat -> e <> IndexError EventLines)
  /\ (forall ts la lo de ma,
        (5 <= List.length event_lines)%nat ->
        pde_of event_lines ts la lo de ma ->
        display (vars st1) = (Some ts, Some la, Some lo, Some de, Some ma)).

(** After the turn, the display variables hold this event's values
    whenever its first line yields them. *)
Definition pde_fresh (event_lines : list str) (st' : state) : Prop :=
  forall ts la lo de ma,
    (5 <= List.length event_lines)%nat ->
    pde_of event_lines ts la lo de ma ->
    display (vars st') = (Some ts, Some la, Some lo, Some de, Some ma).

(** What one turn of the loop does with an event. *)
Inductive chunk_outcome (i : nat) (event_lines : list str)
    (st st' : state) : emission -> Prop :=
| chunk_with_fm ts la lo de ma s d r :
    (5 <= List.length event_lines)%nat ->
    try_body i event_lines st = (Ok tt, st') ->
    fm_event i event_lines st st' ts la lo de ma s d r ->
    chunk_outcome i event_lines st st'
      (InFaultFolder (fst (classify_and_color_by_rake r))
         (fm_point i (fst (classify_and_color_by_rake r))
            ts la lo de ma s d r))
| chunk_fallback e st1 ts la lo de ma :
    (5 <= List.length event_lines)%nat ->
    try_body i event_lines st = (Raise e, st1) ->
    display (vars st') = (Some ts, Some la, Some lo, Some de, Some ma) ->
    chunk_outcome i event_lines st st'
      (InFallback (no_fm_point ts la lo de ma))
| chunk_short :
    (List.length event_lines < 5)%nat ->
    st' = incr_skipped st ->
    chunk_outcome i event_lines st st' Nothing
| chunk_unusable e st1 :
    (5 <= List.length event_lines)%nat ->
    try_body i event_lines st = (Raise e, st1) ->
    mag (vars st1) = None ->
    st' = incr_skipped st1 ->
    chunk_outcome i event_lines st st' Nothing.

End Outcomes.

(** The invariant of the event loop after [n] events. *)
Record run_inv (n : nat) (st : state) : Prop := {
  inv_wf : wf_locals (vars st);
  inv_with :
    events_processed_with_fm st = List.length (fm_points (doc st));
  inv_without :
    events_processed_without_fm st = List.length (no_fm_points (doc st));
  inv_total :
    (events_processed_with_fm st + events_processed_without_fm st
     + events_skipped st = n)%nat;
  inv_placed : Forall placed (all_points (doc st));
  inv_colored : Forall call_colored (beachball_calls st);
  inv_legend : kml_description (doc st) = document_description
}.

(** ** Further vocabulary *)

(** The state the [try] block reaches once both lines are extracted. *)
Definition extracted (st : state) (ts : str) (la lo de ma : pyfloat)
    (loc : str) (s d r : pyfloat) : state :=
  mkState
    (mkLocals (Some ts) (Some la) (Some lo) (Some de) (Some ma) (Some loc)
       (Some s) (Some d) (Some r))
    (doc st) (beachball_calls st) (events_processed_with_fm st)
    (events_processed_without_fm st) (events_skipped st).

Section MoreVocabulary.

Context {ext : Externals}.

(** The first line of the event yields no display fields, or the event
    has no first or fifth line. *)
Definition unusable (event_lines : list str) : Prop :=
  (List.length event_lines < 5)%nat
  \/ forall ts la lo de ma, ~ pde_of event_lines ts la lo de ma.

End MoreVocabulary.

Definition short (event_lines : list str) : bool :=
  (List.length event_lines <? 5)%nat.

(** ** The shape of the document *)

Definition folders (k : kml) : list folder :=
  [ fm_normal k; fm_thrust k; fm_strike_slip k; fm_oblique k;
    events_without_fm_folder k ].

(** Everything of the document but the points. *)
Definition frame_of (k : kml) : str * str * str * list str :=
  (kml_name k, kml_description k, fm_parent_name k,
   map folder_name (folders k)).

(** [f'] holds the points of [f], in place, and then some more. *)
Definition folder_extends (f f' : folder) : Prop :=
  exists added, folder_points f' = folder_points f ++ added.

(** [k'] is [k] with points appended to its folders. *)
Definition extends (k k' : kml) : Prop :=
  frame_of k' = frame_of k
  /\ Forall2 folder_extends (folders k) (folders k').

(** A finished point of the fallback folder. *)
Definition fallback_shaped (p : point) : Prop :=
  exists ts la lo de ma, p = no_fm_point ts la lo de ma.

(** A finished point of the folder of [t], from one of the first [n]
    events, whose rake is of class [t]. *)
Definition fm_shaped (n : nat) (t : fault_type) (p : point) : Prop :=
  exists i ts la lo de ma s d r,
    (i < n)%nat
    /\ t = fst (classify_and_color_by_rake r)
    /\ p = fm_point i t ts la lo de ma s d r.

Definition shaped (n : nat) (k : kml) : Prop :=
  (forall t, Forall (fm_shaped n t) (folder_points (folder_map k t)))
  /\ Forall fallback_shaped (no_fm_points k).

(** ** The diagrams of a run *)

(** The calls of [beachball] that did not raise. *)
Definition rendered {ext : Externals} (calls : list beachball_call)
  : list beachball_call :=
  filter (fun c => negb (beachball_raises c)) calls.

(** Each call is for one of the first [n] events and no two are for the
    same file. *)
Definition calls_inv (n : nat) (calls : list beachball_call) : Prop :=
  Forall (fun c => exists j, (j < n)%nat
                             /\ call_outfile c = beachball_filename j)
    calls
  /\ NoDup (map call_outfile calls)
  /\ (List.length calls <= n)%nat.

(** ** Chunkings *)

(** [chunks] cuts the lines [ls] at the sentinels: in order, without
    empty chunk, with no sentinel after the first line of a chunk and one
    at the head of every chunk but the first. *)
Definition chunked (ls : list str) (chunks : list (list str)) : Prop :=
  concat chunks = ls
  /\ Forall (fun chunk => chunk <> []) chunks
  /\ Forall no_sentinel_inside chunks
  /\ Forall starts_with_sentinel (tl chunks).

(** The number of lines that begin with a sentinel. *)
Definition sentinel_count (ls : list str) : nat :=
  List.length (filter is_sentinel ls).

(** One when the lines begin with a line that is not a sentinel. *)
Definition leading_block (ls : list str) : nat :=
  match ls with
  | l :: _ => if is_sentinel l then 0 else 1
  | [] => 0
  end.

(** ** The classifier under a change of sign *)

Definition mirror (t : fault_type) : fault_type :=
  match t with
  | Normal => Thrust
  | Thrust => Normal
  | StrikeSlip => StrikeSlip
  | Oblique => Oblique
  end.

(** Each point with focal mechanism has the diagram file of one of the
    first [n] events as icon, and no two have the same. *)
Definition icons_inv (n : nat) (k : kml) : Prop :=
  Forall (fun p => exists i, (i < n)%nat
                             /\ pt_href p = Some (beachball_filename i))
    (fm_points k)
  /\ NoDup (map pt_href (fm_points k)).

(** The icons of the points of each fault-type folder are the diagram
    files of events of increasing position, all among the first [n]. *)
Definition in_file_order (n : nat) (k : kml) : Prop :=
  forall t, exists positions,
    StronglySorted lt positions
    /\ Forall (fun i => (i < n)%nat) positions
    /\ map pt_href (folder_points (folder_map k t))
       = map (fun i => Some (beachball_filename i)) positions.

(** ** The script *)

Definition data_file_to_process : str :=
  lit "SPUD_NDK_bundle_2025-06-06T16.47.05.txt".

Definition output_kml : str := lit "focal_mechanisms.kml".

(** The [__main__] block. [file_exists] is what [os.path.exists] says of
    the data file, the other answers are those of the function; the
    result is [None] when the file is reported missing, and else the way
    the call of the function ends. The name of the data file has no
    directory part, so it is its own base name. *)
Definition main {ext : Externals} (file_exists : bool)
    (readlines : option (list str)) (makedirs_raises : bool)
    (save_raises : kml -> bool) : option ending :=
  if file_exists then
    Some (create_kml_from_custom_ndk data_file_to_process readlines
            makedirs_raises save_raises)
  else None.

(** The file the script wrote, with the state at [kml.save]. *)
Definition main_output (r : option ending) : option (str * state) :=
  match r with
  | Some (Saved st) => Some (output_kml, st)
  | _ => None
  end.

(** ** More sample data *)

Module MoreSamples.

(** A renderer that raises on every call. *)
Definition no_renderer (c : beachball_call) : bool := true.

Definition failing_externals : Externals :=
  {| float_of_str := Sample.dec_float; beachball_raises := no_renderer |}.

(** A first line of two tokens. *)
Definition truncated_event : list str :=
  [ lit "PDEQ 2020/01/02";
    lit "C202001020304A B: 1 2 3 S: 4 5 6";
    lit "CENTROID: 1.0 0.1 10.5 0.01 -20.25 0.01 33.0 0.5 FREE S-1";
    lit "24 1.0 0.1 2.0 0.1 3.0 0.1 4.0 0.1 5.0 0.1 6.0 0.1";
    lit "V10 1.0 10 100 2.0 20 200 3.0 30 300 1.0e24 200 45 90 20 45 90" ].



(** The code points XML 1.0 allows in a document. *)
Definition xml_char (c : char) : bool :=
  ((c =? 9) || (c =? 10) || (c =? 13)
   || ((32 <=? c) && (c <=? 55295))
   || ((57344 <=? c) && (c <=? 65533))
   || ((65536 <=? c) && (c <=? 1114111)))%N.

Definition frag_text (f : frag) : str :=
  match f with
  | Text s => s
  | _ => []
  end.

Definition point_text (p : point) : str :=
  concat (map frag_text (pt_name p))
  ++ match pt_href p with Some h => h | None => [] end
  ++ match pt_description p with
     | Some d => concat (map frag_text d)
     | None => []
     end.

(** The text the program put in the document. *)
Definition kml_text (k : kml) : str :=
  kml_name k ++ kml_description k ++ fm_parent_name k
  ++ concat (map (fun f => folder_name f
                           ++ concat (map point_text (folder_points f)))
               (folders k)).

(** A writer that raises on a document with a code point XML does not
    allow, as [kml.save] does when it parses what it serialized. *)
Definition strict_save (k : kml) : bool :=
  negb (forallb xml_char (kml_text k)).

Definition control_char : char := 1%N.

(** An event without focal mechanism whose date ends in U+0001. *)
Definition control_char_event : list str :=
  [ lit "PDEQ 2020/01/02" ++ [control_char]
    ++ lit " 03:04:05.6 10.5 -20.25 33.0 5.5 6.0 NEAR SOMEWHERE";
    lit "C202001020304A B: 1 2 3 S: 4 5 6";
    lit "CENTROID: 1.0 0.1 10.5 0.01 -20.25 0.01 33.0 0.5 FREE S-1";
    lit "24 1.0 0.1 2.0 0.1 3.0 0.1 4.0 0.1 5.0 0.1 6.0 0.1";
    lit "V10 no solution available" ].

End MoreSamples.

(** * Properties *)

(** ** Tactics *)

Ltac cmp_cases :=
  repeat match goal with
  | H : context [Z.compare ?a ?b] |- _ => destruct (Z.compare_spec a b)
  | |- context [Z.compare ?a ?b] => destruct (Z.compare_spec a b)
  | H : context [Pos.compare_cont Eq ?a ?b] |- _ =>
      change (Pos.compare_cont Eq a b) with (Pos.compare a b) in *;
      destruct (Pos.compare_spec a b)
  | |- context [Pos.compare_cont Eq ?a ?b] =>
      change (Pos.compare_cont Eq a b) with (Pos.compare a b) in *;
      destruct (Pos.compare_spec a b)
  end; simpl in *; try discriminate; try reflexivity; try lia.

Ltac keep_wf :=
  let H := fresh in
  let H1 := fresh in
  let H2 := fresh in
  let H3 := fresh in
  let H4 := fresh in
  let H5 := fresh in
  unfold wf_locals, display_bound, display; simpl;
  intros [H|(?ts & ?la & ?lo & ?de & ?ma & H)];
  [left; exact H
  |right; inversion H as [[H1 H2 H3 H4 H5]];
   rewrite ?H1, ?H2, ?H3, ?H4, ?H5; repeat eexists].

(** ** Order of floats *)

Lemma fle_trans (a b c : pyfloat) :
  fle a b = true -> fle b c = true -> fle a c = true.
Proof.
  unfold fle, SFleb.
  destruct a as [sa|sa| |sa ma ea], b as [sb|sb| |sb mb eb],
           c as [sc|sc| |sc mc ec]; simpl;
    try discriminate; try reflexivity;
    try (destruct sa); try (destruct sb); try (destruct sc); simpl;
    try discriminate; try reflexivity; intros H1 H2; cmp_cases.
Qed.

Lemma fle_opp (a b : pyfloat) : fle (fneg a) (fneg b) = fle b a.
Proof.
  unfold fle, fneg, SFleb.
  destruct a as [sa|sa| |sa ma ea], b as [sb|sb| |sb mb eb]; simpl;
    try reflexivity;
    try (destruct sa); try (destruct sb); simpl; try reflexivity; cmp_cases.
Qed.

Lemma fle_gap (lo hi : pyfloat) (x : pyfloat) :
  fle hi lo = false -> fle hi x = true -> fle x lo = true -> False.
Proof.
  intros Hgap H1 H2. rewrite (fle_trans _ _ _ H1 H2) in Hgap. discriminate.
Qed.

Lemma fle_abs_150 (x : pyfloat) :
  fle (float_of_Z 150) (SFabs x)
  = fle (float_of_Z 150) x || fle x (float_of_Z (-150)).
Proof.
  change (float_of_Z 150) with (fneg (float_of_Z (-150))).
  destruct x as [s|s| |s m e]; try reflexivity; destruct s;
    try reflexivity.
  - change (SFabs (S754_finite true m e)) with (fneg (S754_finite true m e)).
    rewrite fle_opp. reflexivity.
  - change (SFabs (S754_finite false m e)) with (S754_finite false m e).
    destruct (fle (fneg (float_of_Z (-150))) (S754_finite false m e));
      reflexivity.
Qed.


(** ** Sign of a product *)







(** ** Rake ranges are disjoint *)

Lemma normal_not_thrust x :
  in_range (-120) (-60) x = true -> in_range 60 120 x = false.
Proof.
  unfold in_range. intros H. apply andb_true_iff in H. destruct H as [_ H].
  destruct (fle (float_of_Z 60) x) eqn:E; [|reflexivity].
  exfalso. apply (fle_gap (float_of_Z (-60)) (float_of_Z 60) x); auto.
Qed.

Lemma strike_slip_not_normal x :
  strike_slip_range x = true -> in_range (-120) (-60) x = false.
Proof.
  unfold strike_slip_range, in_range. rewrite fle_abs_150. intros H.
  destruct (fle (float_of_Z (-120)) x) eqn:E1; [|reflexivity].
  destruct (fle x (float_of_Z (-60))) eqn:E2; [|reflexivity].
  exfalso.
  apply orb_true_iff in H. destruct H as [H|H].
  - apply andb_true_iff in H. destruct H as [H _].
    apply (fle_gap (float_of_Z (-60)) (float_of_Z (-30)) x); auto.
  - apply orb_true_iff in H. destruct H as [H|H].
    + apply (fle_gap (float_of_Z (-60)) (float_of_Z 150) x); auto.
    + apply (fle_gap (float_of_Z (-150)) (float_of_Z (-120)) x); auto.
Qed.

Lemma strike_slip_not_thrust x :
  strike_slip_range x = true -> in_range 60 120 x = false.
Proof.
  unfold strike_slip_range, in_range. rewrite fle_abs_150. intros H.
  destruct (fle (float_of_Z 60) x) eqn:E1; [|reflexivity].
  destruct (fle x (float_of_Z 120)) eqn:E2; [|reflexivity].
  exfalso.
  apply orb_true_iff in H. destruct H as [H|H].
  - apply andb_true_iff in H. destruct H as [_ H].
    apply (fle_gap (float_of_Z 30) (float_of_Z 60) x); auto.
  - apply orb_true_iff in H. destruct H as [H|H].
    + apply (fle_gap (float_of_Z 120) (float_of_Z 150) x); auto.
    + apply (fle_gap (float_of_Z (-150)) (float_of_Z 60) x); auto.
Qed.

Lemma classify_unfold x :
  classify_and_color_by_rake x =
  if in_range (-120) (-60) x then (Normal, green)
  else if in_range 60 120 x then (Thrust, red)
  else if strike_slip_range x then (StrikeSlip, blue)
  else (Oblique, yellow).
Proof.
  unfold classify_and_color_by_rake, strike_slip_range, in_range.
  rewrite fle_abs_150. rewrite orb_assoc. reflexivity.
Qed.


(** ** The grouping loop *)

Lemma clean_lines_snoc ls l :
  clean_lines (ls ++ [l]) =
  clean_lines ls ++ (if nonempty (strip l) then [strip l] else []).
Proof.
  unfold clean_lines. rewrite map_app, filter_app. simpl.
  destruct (nonempty (strip l)); reflexivity.
Qed.

Lemma group_step_grouping ls events cur l :
  grouping ls events cur ->
  grouping (ls ++ [l]) (fst (group_step (events, cur) l))
           (snd (group_step (events, cur) l)).
Proof.
  intros [Hc Hn Hi Hh]. unfold group_step.
  pose proof (clean_lines_snoc ls l) as Hs.
  destruct (nonempty (strip l)) eqn:En; simpl.
  - destruct (is_sentinel (strip l)) eqn:Es; simpl.
    + destruct cur as [|c0 cur']; simpl.
      * constructor; simpl.
        -- rewrite Hs, <- Hc. rewrite !app_nil_r. reflexivity.
        -- exact Hn.
        -- apply Forall_app in Hi. destruct Hi as [Hi _].
           apply Forall_app. split; [exact Hi|].
           constructor; [constructor | constructor].
        -- destruct events as [|e es]; simpl in *; [constructor|].
           apply Forall_app in Hh. destruct Hh as [_ Hh].
           inversion Hh; subst. contradiction.
      * constructor; simpl.
        -- rewrite concat_app. simpl. rewrite app_nil_r.
           rewrite Hs, <- Hc. reflexivity.
        -- apply Forall_app. split; [exact Hn|].
           constructor; [congruence | constructor].
        -- apply Forall_app. split; [exact Hi|].
           constructor; [constructor | constructor].
        -- destruct events as [|e es]; simpl in *.
           ++ constructor; [exact Es | constructor].
           ++ apply Forall_app. split.
              ** exact Hh.
              ** constructor; [exact Es | constructor].
    + constructor; simpl.
      * rewrite app_assoc, Hc, Hs. reflexivity.
      * exact Hn.
      * apply Forall_app in Hi. destruct Hi as [Hi1 Hi2].
        apply Forall_app. split; [exact Hi1|].
        inversion Hi2; subst. constructor; [|constructor].
        unfold no_sentinel_inside in *. destruct cur; simpl in *.
        -- constructor.
        -- apply Forall_app. split; [assumption|].
           constructor; [exact Es | constructor].
      * destruct events as [|e es]; simpl in *; [constructor|].
        apply Forall_app in Hh. destruct Hh as [Hh1 Hh2].
        apply Forall_app. split; [exact Hh1|].
        inversion Hh2; subst. constructor; [|constructor].
        destruct cur; simpl in *; [contradiction | assumption].
  - rewrite app_nil_r in Hs. constructor; try assumption.
    rewrite Hs. exact Hc.
Qed.

Lemma fold_group_step_grouping lines :
  forall ls events cur,
    grouping ls events cur ->
    grouping (ls ++ lines)
      (fst (fold_left group_step lines (events, cur)))
      (snd (fold_left group_step lines (events, cur))).
Proof.
  induction lines as [|l lines IH]; intros ls events cur H.
  - simpl. rewrite app_nil_r. exact H.
  - cbn [fold_left]. apply group_step_grouping with (l := l) in H.
    destruct (group_step (events, cur) l) as [events' cur'].
    cbn [fst snd] in H.
    replace (ls ++ l :: lines) with ((ls ++ [l]) ++ lines)
      by (rewrite <- app_assoc; reflexivity).
    apply IH. exact H.
Qed.

Lemma grouping_start : grouping [] [] [].
Proof.
  constructor; simpl; try constructor; constructor.
Qed.


(** ** Folders and points *)

Lemma update_last_snoc upd (l : list point) p :
  update_last upd (l ++ [p]) = l ++ [upd p].
Proof.
  induction l as [|q l IH]; simpl; [reflexivity|].
  rewrite IH. destruct (l ++ [p]) eqn:E; [|reflexivity].
  destruct l; discriminate.
Qed.

Lemma with_pnt_add_point upd f p :
  with_pnt upd (add_point f p) = add_point f (upd p).
Proof.
  unfold with_pnt, add_point. simpl. rewrite update_last_snoc. reflexivity.
Qed.

Lemma newpoint_add_point f name :
  newpoint f name = add_point f (mkPoint name None None None).
Proof. reflexivity. Qed.

Lemma folder_map_set k t f : folder_map (set_folder_map k t f) t = f.
Proof. destruct t; reflexivity. Qed.

Lemma set_folder_map_twice k t f g :
  set_folder_map (set_folder_map k t f) t g = set_folder_map k t g.
Proof. destruct t; reflexivity. Qed.

Lemma fm_points_emission e k :
  List.length (fm_points (apply_emission e k)) =
  match e with
  | InFaultFolder _ _ => S (List.length (fm_points k))
  | _ => List.length (fm_points k)
  end.
Proof.
  destruct e as [t p|p|]; try reflexivity.
  destruct t; unfold fm_points; simpl; rewrite !length_app; simpl; lia.
Qed.

Lemma no_fm_points_emission e k :
  no_fm_points (apply_emission e k) =
  match e with
  | InFallback p => no_fm_points k ++ [p]
  | _ => no_fm_points k
  end.
Proof.
  destruct e as [t p|p|]; try reflexivity. destruct t; reflexivity.
Qed.

Lemma in_all_points_emission e k q :
  In q (all_points (apply_emission e k)) <->
  In q (all_points k)
  \/ match e with
     | InFaultFolder _ p | InFallback p => q = p
     | Nothing => False
     end.
Proof.
  destruct e as [t p|p|]; unfold all_points, fm_points, no_fm_points.
  - destruct t; simpl; rewrite !in_app_iff; simpl; intuition congruence.
  - simpl. rewrite !in_app_iff. simpl. intuition congruence.
  - simpl. tauto.
Qed.

Lemma kml_description_emission e k :
  kml_description (apply_emission e k) = kml_description k.
Proof.
  destruct e as [t p|p|]; try reflexivity. destruct t; reflexivity.
Qed.

Lemma py_index_in_bounds {A} (l : list A) (i : Z) :
  (- Z.of_nat (List.length l) <= i < Z.of_nat (List.length l))%Z ->
  exists a, py_index l i = Some a.
Proof.
  intros H. unfold py_index.
  destruct (0 <=? i)%Z eqn:E.
  - apply Z.leb_le in E.
    destruct (nth_error l (Z.to_nat i)) eqn:En; [eauto|].
    apply nth_error_None in En. lia.
  - apply Z.leb_gt in E.
    destruct (0 <=? Z.of_nat (List.length l) + i)%Z eqn:E2.
    + destruct (nth_error l (Z.to_nat (Z.of_nat (List.length l) + i))) eqn:En;
        [eauto|].
      apply nth_error_None in En. lia.
    + apply Z.leb_gt in E2. lia.
Qed.


(** ** The loop body *)

Section Step.

Context {ext : Externals}.

Ltac run_block :=
  repeat match goal with
  | |- context [match py_index ?l ?i with _ => _ end] =>
      destruct (py_index l i) eqn:?; simpl
  | |- context [match float_of_str ?t with _ => _ end] =>
      destruct (float_of_str t) eqn:?; simpl
  end.

Lemma bind_ok {A B} (m : M A) (k : A -> M B) st a st' :
  m st = (Ok a, st') -> bind m k st = k a st'.
Proof. intros H. unfold bind. rewrite H. reflexivity. Qed.

Lemma index_ok {A} s (l : list A) i a st :
  py_index l i = Some a -> index s l i st = (Ok a, st).
Proof. intros H. unfold index. rewrite H. reflexivity. Qed.

Lemma float_ok tok x st :
  float_of_str tok = Some x -> float tok st = (Ok x, st).
Proof. intros H. unfold float. rewrite H. reflexivity. Qed.

Ltac run_ok :=
  repeat (erewrite bind_ok
            by (first [ apply index_ok; eassumption
                      | apply float_ok; eassumption
                      | reflexivity ]);
          simpl).

Lemma emit_with_fm_run i ts la lo de ma s d r st :
  emit_with_fm i ts la lo de ma s d r st =
  let c := the_call i s d r in
  let t := fst (classify_and_color_by_rake r) in
  if beachball_raises c then
    (Raise BeachballError,
     mkState (vars st) (doc st) (beachball_calls st ++ [c])
       (events_processed_with_fm st) (events_processed_without_fm st)
       (events_skipped st))
  else
    (Ok tt,
     mkState (vars st)
       (apply_emission (InFaultFolder t (fm_point i t ts la lo de ma s d r))
          (doc st))
       (beachball_calls st ++ [c])
       (S (events_processed_with_fm st)) (events_processed_without_fm st)
       (events_skipped st)).
Proof.
  unfold emit_with_fm, the_call.
  destruct (classify_and_color_by_rake r) as [t c] eqn:E. simpl.
  unfold bind, beachball. simpl.
  destruct (beachball_raises _); [reflexivity|].
  unfold set_doc, modify, incr_with_fm. simpl.
  rewrite !folder_map_set, !set_folder_map_twice.
  rewrite newpoint_add_point, !with_pnt_add_point. reflexivity.
Qed.

Lemma fallback_run st ts la lo de ma :
  display (vars st) = (Some ts, Some la, Some lo, Some de, Some ma) ->
  fallback st =
  (Ok tt,
   mkState (vars st)
     (apply_emission (InFallback (no_fm_point ts la lo de ma)) (doc st))
     (beachball_calls st)
     (events_processed_with_fm st) (S (events_processed_without_fm st))
     (events_skipped st)).
Proof.
  unfold display. intros H. inversion H as [[H1 H2 H3 H4 H5]].
  unfold fallback, bind, read, set_doc, modify, incr_without_fm. simpl.
  repeat (rewrite ?H1, ?H2, ?H3, ?H4, ?H5; simpl).
  rewrite newpoint_add_point, !with_pnt_add_point. reflexivity.
Qed.

Lemma fallback_unbound st :
  mag (vars st) = None ->
  fallback st = (Raise (UnboundLocalError VMag), st).
Proof.
  intros H. unfold fallback, bind, read. rewrite H. reflexivity.
Qed.

Lemma extract_pde_spec parts st :
  match extract_pde parts st with
  | (Ok (ts, la, lo, de, ma), st1) =>
      same_output st st1
      /\ vars st1 =
         mkLocals (Some ts) (Some la) (Some lo) (Some de) (Some ma)
           (Some (join (lit " ") (py_slice_from 8 parts)))
           (strike (vars st)) (dip (vars st)) (rake (vars st))
      /\ exists p1 p2 p3 p4 p5 p7,
           py_index parts 1 = Some p1 /\ py_index parts 2 = Some p2
           /\ py_index parts 3 = Some p3 /\ py_index parts 4 = Some p4
           /\ py_index parts 5 = Some p5 /\ py_index parts 7 = Some p7
           /\ ts = p1 ++ lit " " ++ p2
           /\ float_of_str p3 = Some la /\ float_of_str p4 = Some lo
           /\ float_of_str p5 = Some de /\ float_of_str p7 = Some ma
  | (Raise e, st1) =>
      same_output st st1
      /\ (wf_locals (vars st) -> wf_locals (vars st1))
      /\ mag (vars st1) = mag (vars st)
      /\ (e = IndexError PdeParts \/ exists tok, e = ValueError_float tok)
  end.
Proof.
  unfold extract_pde, bind, index, float, assign_time_str,
    assign_lat, assign_lon, assign_depth, assign_mag, assign_location,
    set_vars, modify, ret, raise, same_output, counters.
  run_block;
    try (repeat split; eauto; try keep_wf; fail).
  repeat split; eauto 20.
Qed.

Lemma extract_sdr_spec parts st :
  match extract_sdr parts st with
  | (Ok (s, d, r), st1) =>
      same_output st st1
      /\ sdr_unchanged (vars st) (vars st1)
      /\ strike (vars st1) = Some s /\ dip (vars st1) = Some d
      /\ rake (vars st1) = Some r
      /\ exists s6 s5 s4,
           py_index parts (-6) = Some s6 /\ py_index parts (-5) = Some s5
           /\ py_index parts (-4) = Some s4
           /\ float_of_str s6 = Some s /\ float_of_str s5 = Some d
           /\ float_of_str s4 = Some r
  | (Raise e, st1) =>
      same_output st st1
      /\ sdr_unchanged (vars st) (vars st1)
      /\ ((e = IndexError SdrParts
           /\ (py_index parts (-6) = None \/ py_index parts (-5) = None
               \/ py_index parts (-4) = None))
          \/ exists k tok,
               In k [-6; -5; -4]%Z /\ py_index parts k = Some tok
               /\ float_of_str tok = None /\ e = ValueError_float tok)
  end.
Proof.
  unfold extract_sdr, bind, index, float, assign_strike,
    assign_dip, assign_rake, set_vars, modify, ret, raise, same_output,
    sdr_unchanged, display, counters.
  run_block;
    try (repeat split; eauto 10; fail).
  all: repeat split; auto; right; eexists _, _; simpl; eauto 10.
Qed.

Lemma pde_of_unique event_lines ts la lo de ma ts' la' lo' de' ma' :
  pde_of event_lines ts la lo de ma ->
  pde_of event_lines ts' la' lo' de' ma' ->
  (Some ts, Some la, Some lo, Some de, Some ma)
  = (Some ts', Some la', Some lo', Some de', Some ma').
Proof.
  intros (l & p1 & p2 & p3 & p4 & p5 & p7 & H)
         (l' & q1 & q2 & q3 & q4 & q5 & q7 & H').
  destruct H as (H0 & H1 & H2 & H3 & H4 & H5 & H7 & Ht & F3 & F4 & F5 & F7).
  destruct H' as (G0 & G1 & G2 & G3 & G4 & G5 & G7 & Gt & K3 & K4 & K5 & K7).
  rewrite H0 in G0. inversion G0; subst l'.
  rewrite H1 in G1; rewrite H2 in G2; rewrite H3 in G3; rewrite H4 in G4;
    rewrite H5 in G5; rewrite H7 in G7.
  inversion G1; inversion G2; inversion G3; inversion G4; inversion G5;
    inversion G7; subst.
  congruence.
Qed.

Lemma extract_pde_ok parts st p1 p2 p3 p4 p5 p7 la lo de ma :
  py_index parts 1 = Some p1 -> py_index parts 2 = Some p2 ->
  py_index parts 3 = Some p3 -> py_index parts 4 = Some p4 ->
  py_index parts 5 = Some p5 -> py_index parts 7 = Some p7 ->
  float_of_str p3 = Some la -> float_of_str p4 = Some lo ->
  float_of_str p5 = Some de -> float_of_str p7 = Some ma ->
  extract_pde parts st =
  (Ok (p1 ++ lit " " ++ p2, la, lo, de, ma),
   mkState
     (mkLocals (Some (p1 ++ lit " " ++ p2)) (Some la) (Some lo) (Some de)
        (Some ma) (Some (join (lit " ") (py_slice_from 8 parts)))
        (strike (vars st)) (dip (vars st)) (rake (vars st)))
     (doc st) (beachball_calls st) (events_processed_with_fm st)
     (events_processed_without_fm st) (events_skipped st)).
Proof.
  intros H1 H2 H3 H4 H5 H7 F3 F4 F5 F7.
  unfold extract_pde. run_ok. reflexivity.
Qed.

Lemma raise_post_bound i event_lines st e st1 :
  doc st1 = doc st -> counters st1 = counters st ->
  display_bound (vars st1) ->
  (beachball_calls st1 = beachball_calls st
   \/ exists s d r,
        beachball_calls st1 = beachball_calls st ++ [the_call i s d r]
        /\ rake (vars st1) = Some r) ->
  e <> IndexError SdrParts -> e <> IndexError EventLines ->
  (forall ts la lo de ma,
      pde_of event_lines ts la lo de ma ->
      display (vars st1) = (Some ts, Some la, Some lo, Some de, Some ma)) ->
  raise_post i event_lines st e st1.
Proof.
  intros. unfold raise_post, wf_locals. repeat split; auto.
Qed.

Lemma try_body_spec i event_lines st :
  match try_body i event_lines st with
  | (Ok _, st1) =>
      exists ts la lo de ma s d r,
        fm_event i event_lines st st1 ts la lo de ma s d r
  | (Raise e, st1) => raise_post i event_lines st e st1
  end.
Proof.
  unfold try_body, bind, index, ret, raise.
  destruct (py_index event_lines 0) as [pde_line|] eqn:E0; cbv beta iota.
  2:{ unfold raise_post. repeat split; auto; try congruence.
      - intros H.
        destruct (py_index_in_bounds event_lines 0) as [a Ha]; [lia|].
        congruence.
      - intros ts la lo de ma _ (l & ? & ? & ? & ? & ? & ? & H0 & _).
        congruence. }
  destruct (py_index event_lines 4) as [sdr_line|] eqn:E4; cbv beta iota.
  2:{ assert (~ (5 <= List.length event_lines)%nat) as Hlen.
      { intros H.
        destruct (py_index_in_bounds event_lines 4) as [a Ha]; [lia|].
        congruence. }
      unfold raise_post. repeat split; auto; try congruence; tauto. }
  pose proof (extract_pde_spec (split pde_line) st) as Hp.
  destruct (extract_pde (split pde_line) st)
    as [[[[[[ts la] lo] de] ma]|e] st1] eqn:Ep.
  2:{ destruct Hp as ((Hd & Hc & Hn) & Hw & _ & He). unfold raise_post.
      repeat split; auto;
        try (destruct He as [He|[tok He]]; congruence).
      intros ts la lo de ma _
        (l & p1 & p2 & p3 & p4 & p5 & p7 & H0 & H1 & H2 & H3
         & H4 & H5 & H7 & _ & F3 & F4 & F5 & F7).
      assert (l = pde_line) by congruence. subst l.
      rewrite (extract_pde_ok _ st _ _ _ _ _ _ _ _ _ _
                 H1 H2 H3 H4 H5 H7 F3 F4 F5 F7) in Ep.
      discriminate. }
  destruct Hp as ((Hd & Hc & Hn) & Hv & Htok).
  assert (Hpde : pde_of event_lines ts la lo de ma).
  { destruct Htok as (p1 & p2 & p3 & p4 & p5 & p7 & Htok).
    exists pde_line, p1, p2, p3, p4, p5, p7. intuition. }
  assert (Hb1 : display (vars st1)
                = (Some ts, Some la, Some lo, Some de, Some ma)).
  { rewrite Hv. reflexivity. }
  assert (Hu : forall st2, display (vars st2) = display (vars st1) ->
            display_bound (vars st2)
            /\ forall ts' la' lo' de' ma',
                pde_of event_lines ts' la' lo' de' ma' ->
                display (vars st2)
                = (Some ts', Some la', Some lo', Some de', Some ma')).
  { intros st2 H2. split.
    - unfold display_bound. rewrite H2, Hb1. repeat eexists.
    - intros ts' la' lo' de' ma' H'. rewrite H2, Hb1.
      eapply pde_of_unique; eassumption. }
  destruct (6 <=? List.length (split sdr_line))%nat eqn:E6.
  2:{ destruct (Hu st1 eq_refl).
      apply raise_post_bound; auto; congruence. }
  pose proof (extract_sdr_spec (split sdr_line) st1) as Hs.
  destruct (extract_sdr (split sdr_line) st1) as [[[[s d] r]|e] st2].
  2:{ destruct Hs as ((Hd2 & Hc2 & Hn2) & (Hdis & _) & He).
      apply Nat.leb_le in E6. destruct (Hu st2 Hdis).
      apply raise_post_bound; try congruence; try assumption.
      - left. congruence.
      - destruct He as [[_ He]|(k & tok & _ & _ & _ & He)]; [|congruence].
        intros _.
        destruct (py_index_in_bounds (split sdr_line) (-6)) as [? ?];
          [lia|].
        destruct (py_index_in_bounds (split sdr_line) (-5)) as [? ?];
          [lia|].
        destruct (py_index_in_bounds (split sdr_line) (-4)) as [? ?];
          [lia|].
        intuition congruence.
      - destruct He as [[He _]|(k & tok & _ & _ & _ & He)]; congruence. }
  destruct Hs as ((Hd2 & Hc2 & Hn2) & (Hdis & _) & Hs6 & Hs5 & Hs4 & Hstok).
  destruct (Hu st2 Hdis) as [Hb2 Hu2].
  destruct (feq s (float_of_Z 0) && feq d (float_of_Z 0)) eqn:Ez.
  { apply raise_post_bound; try congruence; try assumption.
    left. congruence. }
  rewrite emit_with_fm_run. cbv zeta.
  destruct (beachball_raises (the_call i s d r)) eqn:Eb.
  { apply raise_post_bound; unfold counters in *; simpl;
      try congruence; try assumption.
    right. exists s, d, r. split; [congruence | assumption]. }
  exists ts, la, lo, de, ma, s, d, r.
  destruct Hstok as (s6 & s5 & s4 & Hstok).
  constructor; simpl; auto; try congruence.
  - exists sdr_line, s6, s5, s4. intuition.
  - unfold emitted, counters in *. simpl. split; [congruence|].
    inversion Hn; inversion Hn2. congruence.
Qed.

Lemma process_event_spec i event_lines st :
  wf_locals (vars st) ->
  wf_locals (vars (process_event i event_lines st))
  /\ pde_fresh event_lines (process_event i event_lines st)
  /\ calls_grow i st (process_event i event_lines st)
  /\ exists e,
       chunk_outcome i event_lines st (process_event i event_lines st) e
       /\ emitted e st (process_event i event_lines st).
Proof.
  intros Hwf. unfold process_event.
  destruct (List.length event_lines <? 5)%nat eqn:E5.
  { apply Nat.ltb_lt in E5. repeat split.
    - exact Hwf.
    - intros ts la lo de ma H. lia.
    - left. reflexivity.
    - exists Nothing. split; [apply chunk_short; auto|].
      split; reflexivity. }
  apply Nat.ltb_ge in E5.
  pose proof (try_body_spec i event_lines st) as Ht.
  destruct (try_body i event_lines st) as [[[]|e] st1] eqn:Et.
  { destruct Ht as (ts & la & lo & de & ma & s & d & r & Hfm).
    pose proof Hfm as [Hpde _ _ _ Hdis _ Hemit Hcalls].
    repeat split.
    - right. unfold display_bound. rewrite Hdis. repeat eexists.
    - intros ts' la' lo' de' ma' _ H'. rewrite Hdis.
      eapply pde_of_unique; [exact Hpde | exact H'].
    - right. exists s, d, r. exact Hcalls.
    - eexists. split; [eapply chunk_with_fm; eauto|].
      exact Hemit. }
  destruct Ht as (Hd & Hc & Hw & Hcalls & _ & _ & Hfresh).
  specialize (Hw Hwf).
  destruct (mag (vars st1)) as [ma|] eqn:Em.
  - destruct Hw as [Hw|(ts & la & lo & de & ma' & Hdis)]; [congruence|].
    rewrite (fallback_run st1 _ _ _ _ _ Hdis). simpl. repeat split.
    + right. unfold display_bound. rewrite Hdis. repeat eexists.
    + intros ts' la' lo' de' ma'' H5 H'. apply Hfresh; assumption.
    + destruct Hcalls as [Hcalls|(s & d & r & Hcalls & _)];
        [left; exact Hcalls | right; eauto].
    + eexists. split; [eapply chunk_fallback; eauto|].
      unfold emitted, counters in *. simpl. split; [congruence|].
      inversion Hc. congruence.
  - rewrite (fallback_unbound st1 Em). repeat split.
    + left. exact Em.
    + intros ts' la' lo' de' ma'' H5 H'. apply Hfresh; assumption.
    + destruct Hcalls as [Hcalls|(s & d & r & Hcalls & _)];
        [left; exact Hcalls | right; eauto].
    + exists Nothing. split; [eapply chunk_unusable; eauto|].
      unfold emitted, counters in *. simpl. split; [congruence|].
      inversion Hc. congruence.
Qed.

Lemma outcome_placed i event_lines st st' e :
  chunk_outcome i event_lines st st' e ->
  match e with
  | InFaultFolder _ p | InFallback p =>
      exists ts la lo de ma,
        display (vars st') = (Some ts, Some la, Some lo, Some de, Some ma)
        /\ pt_coords p = Some (lo, la, fmul (fneg de) (float_of_Z 1000))
  | Nothing => True
  end.
Proof.
  intros H. destruct H as [ts la lo de ma s d r _ _ Hfm|e st1 ts la lo de ma
                            _ _ Hdis| |]; auto.
  - destruct Hfm as [_ _ _ _ Hdis _ _ _].
    exists ts, la, lo, de, ma. split; [exact Hdis | reflexivity].
  - exists ts, la, lo, de, ma. split; [exact Hdis | reflexivity].
Qed.

Lemma the_call_colored i s d r : call_colored (the_call i s d r).
Proof. reflexivity. Qed.

Lemma process_event_inv n i event_lines st :
  run_inv n st -> run_inv (S n) (process_event i event_lines st).
Proof.
  intros [Hwf Hw Hf Ht Hp Hc Hl].
  destruct (process_event_spec i event_lines st Hwf)
    as (Hwf' & _ & Hcalls & e & Hout & Hdoc & Hcnt).
  pose proof (outcome_placed _ _ _ _ _ Hout) as Hpl.
  unfold counters in Hcnt.
  constructor.
  - exact Hwf'.
  - rewrite Hdoc, fm_points_emission.
    destruct e; simpl in Hcnt; inversion Hcnt; congruence.
  - rewrite Hdoc, no_fm_points_emission.
    destruct e; simpl in Hcnt; inversion Hcnt; try congruence.
    rewrite length_app. simpl. lia.
  - destruct e; simpl in Hcnt; inversion Hcnt; lia.
  - apply Forall_forall. intros q Hq. rewrite Hdoc in Hq.
    apply in_all_points_emission in Hq. destruct Hq as [Hq|Hq].
    + rewrite Forall_forall in Hp. apply Hp. exact Hq.
    + destruct e as [t p|p|]; [| |contradiction]; subst q;
        destruct Hpl as (ts & la & lo & de & ma & _ & Hco);
        exists lo, la, de; exact Hco.
  - destruct Hcalls as [Hcalls|(s & d & r & Hcalls)]; rewrite Hcalls.
    + exact Hc.
    + apply Forall_app. split; [exact Hc|].
      constructor; [apply the_call_colored | constructor].
  - rewrite Hdoc, kml_description_emission. exact Hl.
Qed.

Lemma process_events_inv events :
  forall n i st,
    run_inv n st ->
    run_inv (n + List.length events) (process_events i events st).
Proof.
  induction events as [|ev events IH]; intros n i st H; simpl.
  - rewrite Nat.add_0_r. exact H.
  - replace (n + S (List.length events))%nat with (S n + List.length events)%nat
      by lia.
    apply IH. apply process_event_inv. exact H.
Qed.

Lemma initial_inv basename : run_inv 0 (initial_state basename).
Proof.
  constructor; simpl; try reflexivity; try constructor.
  reflexivity.
Qed.

Lemma process_events_app pre post :
  forall i st,
    process_events i (pre ++ post) st
    = process_events (i + List.length pre) post (process_events i pre st).
Proof.
  induction pre as [|ev pre IH]; intros i st; simpl.
  - rewrite Nat.add_0_r. reflexivity.
  - rewrite IH. f_equal. lia.
Qed.

(** ** Forward evaluation of the two extraction blocks *)

Lemma py_index_negative_some {A} (l : list A) (i : Z) (a : A) :
  (i < 0)%Z -> py_index l i = Some a -> (- i <= Z.of_nat (List.length l))%Z.
Proof.
  intros Hi H. unfold py_index in H.
  destruct (0 <=? i)%Z eqn:E; [apply Z.leb_le in E; lia|].
  destruct (0 <=? Z.of_nat (List.length l) + i)%Z eqn:E2; [|discriminate].
  apply Z.leb_le in E2. lia.
Qed.

Lemma py_index_from_end {A} (pre suf : list A) (k : nat) :
  (k < List.length suf)%nat ->
  py_index (pre ++ suf) (Z.of_nat k - Z.of_nat (List.length suf))
  = nth_error suf k.
Proof.
  intros Hk. unfold py_index. rewrite length_app.
  destruct (0 <=? Z.of_nat k - Z.of_nat (List.length suf))%Z eqn:E;
    [apply Z.leb_le in E; lia|].
  destruct (0 <=? Z.of_nat (List.length pre + List.length suf)
                  + (Z.of_nat k - Z.of_nat (List.length suf)))%Z eqn:E2;
    [|apply Z.leb_gt in E2; lia].
  replace (Z.to_nat (Z.of_nat (List.length pre + List.length suf)
                     + (Z.of_nat k - Z.of_nat (List.length suf))))
    with (List.length pre + k)%nat by lia.
  rewrite nth_error_app2 by lia. f_equal. lia.
Qed.

Lemma extract_sdr_ok parts st s6 s5 s4 s d r :
  py_index parts (-6) = Some s6 -> py_index parts (-5) = Some s5 ->
  py_index parts (-4) = Some s4 ->
  float_of_str s6 = Some s -> float_of_str s5 = Some d ->
  float_of_str s4 = Some r ->
  extract_sdr parts st =
  (Ok (s, d, r),
   mkState
     (mkLocals (time_str (vars st)) (lat (vars st)) (lon (vars st))
        (depth (vars st)) (mag (vars st)) (location (vars st))
        (Some s) (Some d) (Some r))
     (doc st) (beachball_calls st) (events_processed_with_fm st)
     (events_processed_without_fm st) (events_skipped st)).
Proof.
  intros H6 H5 H4 F6 F5 F4. unfold extract_sdr. run_ok. reflexivity.
Qed.

Lemma sdr_of_excludes_no_mechanism event_lines s d r :
  sdr_of event_lines s d r ->
  feq s (float_of_Z 0) && feq d (float_of_Z 0) = false ->
  no_mechanism event_lines -> False.
Proof.
  intros (l & s6 & s5 & s4 & H4 & I6 & I5 & I4 & F6 & F5 & F4) Hnz
         (l' & H4' & Hno).
  assert (l' = l) by congruence. subst l'.
  destruct Hno as [Hlen|[(k & tok & Hk & Hi & Hf)
                         |(t6 & t5 & s' & d' & J6 & J5 & G6 & G5 & Z6 & Z5)]].
  - apply py_index_negative_some in I6; lia.
  - simpl in Hk. destruct Hk as [Hk|[Hk|[Hk|[]]]]; subst k; congruence.
  - assert (s' = s) by congruence. assert (d' = d) by congruence. subst.
    rewrite Z6, Z5 in Hnz. discriminate.
Qed.

(** C1, as amended: an event of at least five lines whose first line
    yields time, latitude, longitude, depth and magnitude, and whose fifth
    line has fewer than 6 tokens, or a strike, dip or rake token that is
    not a number, or strike and dip both zero, adds exactly one point, to
    the folder of events without focal mechanism and with the red-circle
    marker, and none to a fault-type folder. *)
Theorem fallback_point_when_no_mechanism
    (i : nat) (event_lines : list str) (st : state)
    (ts : str) (la lo de ma : pyfloat) :
  (5 <= List.length event_lines)%nat ->
  pde_of event_lines ts la lo de ma ->
  no_mechanism event_lines ->
  emitted (InFallback (no_fm_point ts la lo de ma)) st
    (process_event i event_lines st)
  /\ pt_href (no_fm_point ts la lo de ma) = Some red_circle
  /\ fm_points (doc (process_event i event_lines st)) = fm_points (doc st)
  /\ no_fm_points (doc (process_event i event_lines st))
     = no_fm_points (doc st) ++ [no_fm_point ts la lo de ma].
Proof.
  intros Hlen Hpde Hno.
  assert (Hem : emitted (InFallback (no_fm_point ts la lo de ma)) st
                  (process_event i event_lines st)).
  { unfold process_event.
    destruct (List.length event_lines <? 5)%nat eqn:E5;
      [apply Nat.ltb_lt in E5; lia|].
    pose proof (try_body_spec i event_lines st) as Ht.
    destruct (try_body i event_lines st) as [[[]|e] st1].
    - destruct Ht as (ts' & la' & lo' & de' & ma' & s & d & r & Hfm).
      destruct Hfm as [_ Hsdr Hnz _ _ _ _ _].
      exfalso. eapply sdr_of_excludes_no_mechanism; eassumption.
    - destruct Ht as (Hd & Hc & _ & _ & _ & _ & Hfresh).
      rewrite (fallback_run st1 _ _ _ _ _ (Hfresh _ _ _ _ _ Hlen Hpde)).
      unfold emitted, counters in *. simpl. split; [congruence|].
      inversion Hc. congruence. }
  split; [exact Hem|]. split; [reflexivity|].
  destruct Hem as [Hdoc _]. rewrite Hdoc. split; reflexivity.
Qed.

(** C3: in an event of at least five lines, the fields come from the
    first and the fifth line only, at fixed token positions: time from
    tokens 1 and 2, latitude from token 3, longitude from token 4, depth
    from token 5, magnitude from token 7 and location from tokens 8 onward
    of the first line; strike, dip and rake from the 6th-, 5th- and
    4th-from-last tokens of the fifth line. *)
Theorem fields_at_fixed_positions
    (i : nat) (l0 l1 l2 l3 l4 : str) (rest : list str) (st : state)
    (t0 t1 t2 t3 t4 t5 t6 t7 : str) (loc : list str)
    (pre : list str) (s6 s5 s4 x3 x2 x1 : str)
    (la lo de ma s d r : pyfloat) :
  split l0 = t0 :: t1 :: t2 :: t3 :: t4 :: t5 :: t6 :: t7 :: loc ->
  float_of_str t3 = Some la -> float_of_str t4 = Some lo ->
  float_of_str t5 = Some de -> float_of_str t7 = Some ma ->
  split l4 = pre ++ [s6; s5; s4; x3; x2; x1] ->
  float_of_str s6 = Some s -> float_of_str s5 = Some d ->
  float_of_str s4 = Some r ->
  vars (snd (try_body i (l0 :: l1 :: l2 :: l3 :: l4 :: rest) st))
  = mkLocals (Some (t1 ++ lit " " ++ t2)) (Some la) (Some lo) (Some de)
      (Some ma) (Some (join (lit " ") loc)) (Some s) (Some d) (Some r).
Proof.
  intros Hp F3 F4 F5 F7 Hs G6 G5 G4.
  unfold try_body.
  erewrite bind_ok by (apply index_ok; reflexivity).
  erewrite bind_ok by (apply index_ok; reflexivity).
  erewrite bind_ok
    by (apply extract_pde_ok with (p1 := t1) (p2 := t2) (p3 := t3)
          (p4 := t4) (p5 := t5) (p7 := t7);
        first [rewrite Hp; reflexivity | eassumption]).
  rewrite Hp at 1. cbn [py_slice_from skipn].
  assert (H6 : (6 <=? List.length (split l4))%nat = true).
  { apply Nat.leb_le. rewrite Hs, length_app. simpl. lia. }
  rewrite H6.
  erewrite bind_ok.
  2:{ apply extract_sdr_ok with (s6 := s6) (s5 := s5) (s4 := s4);
        try eassumption; rewrite Hs.
      - apply (py_index_from_end pre [s6; s5; s4; x3; x2; x1] 0).
        simpl. lia.
      - apply (py_index_from_end pre [s6; s5; s4; x3; x2; x1] 1).
        simpl. lia.
      - apply (py_index_from_end pre [s6; s5; s4; x3; x2; x1] 2).
        simpl. lia. }
  cbv beta iota.
  destruct (feq s (float_of_Z 0) && feq d (float_of_Z 0)).
  - reflexivity.
  - rewrite emit_with_fm_run. cbv zeta.
    destruct (beachball_raises (the_call i s d r)); reflexivity.
Qed.



(** ** Whole runs *)

Lemma reachable_inv (basename : str) (events : list (list str)) :
  run_inv (List.length events)
    (process_events 0 events (initial_state basename)).
Proof.
  apply (process_events_inv events 0 0 (initial_state basename)).
  apply initial_inv.
Qed.

Lemma at_save_run basename lines save_raises :
  at_save (create_kml_from_custom_ndk basename (Some lines) false
             save_raises)
  = Some (process_events 0 (group_lines lines) (initial_state basename)).
Proof.
  unfold create_kml_from_custom_ndk. cbv beta iota zeta.
  destruct (save_raises _); reflexivity.
Qed.



Lemma all_points_length (k : kml) :
  List.length (all_points k)
  = (List.length (fm_points k) + List.length (no_fm_points k))%nat.
Proof. unfold all_points. apply length_app. Qed.


(** C7, as amended: when the [try] block ends by an exception on an
    event, the event gets its point in the fallback folder or is counted
    as skipped, the events after it are processed from the state it
    leaves, and [kml.save] is called on the document built; that document
    is written when [kml.save] does not raise. *)
Theorem exceptions_never_abort
    (basename : str) (pre : list (list str)) (event_lines : list str)
    (post : list (list str)) (e : exn) (st1 : state) :
  let st := process_events 0 pre (initial_state basename) in
  let st' := process_event (List.length pre) event_lines st in
  try_body (List.length pre) event_lines st = (Raise e, st1) ->
  ((exists p, emitted (InFallback p) st st') \/ emitted Nothing st st')
  /\ process_events 0 (pre ++ event_lines :: post) (initial_state basename)
     = process_events (S (List.length pre)) post st'
  /\ forall lines save_raises,
       group_lines lines = pre ++ event_lines :: post ->
       let final := process_events (S (List.length pre)) post st' in
       at_save (create_kml_from_custom_ndk basename (Some lines) false
                  save_raises) = Some final
       /\ (save_raises (doc final) = false ->
           create_kml_from_custom_ndk basename (Some lines) false
             save_raises = Saved final).
Proof.
  intros st st' Hraise.
  assert (Happ : process_events 0 (pre ++ event_lines :: post)
                   (initial_state basename)
                 = process_events (S (List.length pre)) post st').
  { rewrite process_events_app. reflexivity. }
  split; [|split; [exact Happ|]].
  - destruct (reachable_inv basename pre) as [Hwf _ _ _ _ _ _].
    destruct (process_event_spec (List.length pre) event_lines st Hwf)
      as (_ & _ & _ & e' & Hout & Hem).
    destruct Hout as [ts la lo de ma s d r _ Hok _| | |].
    + fold st in Hok. congruence.
    + left. eexists. exact Hem.
    + right. exact Hem.
    + right. exact Hem.
  - intros lines save_raises Hg final.
    rewrite at_save_run, Hg, Happ. split; [reflexivity|].
    intros Hsave. unfold create_kml_from_custom_ndk. cbv beta iota zeta.
    rewrite Hg, Happ. fold final. rewrite Hsave. reflexivity.
Qed.

(** C8: every turn of the loop increments exactly one of the three
    counters; at the end their sum is the number of events the grouper
    produced, and the two counters of processed events are the numbers of
    points in the fault-type folders and in the fallback folder. *)
Theorem counters_account_for_every_chunk
    (basename : str) (lines : list str) (save_raises : kml -> bool) :
  (exists final,
      at_save (create_kml_from_custom_ndk basename (Some lines) false
                 save_raises) = Some final
      /\ (events_processed_with_fm final + events_processed_without_fm final
          + events_skipped final = List.length (group_lines lines))%nat
      /\ events_processed_with_fm final
         = List.length (fm_points (doc final))
      /\ events_processed_without_fm final
         = List.length (no_fm_points (doc final)))
  /\ forall pre event_lines,
       let st := process_events 0 pre (initial_state basename) in
       let st' := process_event (List.length pre) event_lines st in
       let '(w, f, s) := counters st in
       counters st' = (S w, f, s) \/ counters st' = (w, S f, s)
       \/ counters st' = (w, f, S s).
Proof.
  split.
  - eexists. split; [apply at_save_run|].
    destruct (reachable_inv basename (group_lines lines))
      as [_ Hw Hf Ht _ _ _].
    auto.
  - intros pre event_lines st st'.
    destruct (reachable_inv basename pre) as [Hwf _ _ _ _ _ _].
    destruct (process_event_spec (List.length pre) event_lines st Hwf)
      as (_ & _ & _ & e & _ & _ & Hcnt).
    fold st' in Hcnt. rewrite Hcnt.
    destruct (counters st) as [[w f] s].
    destruct e; simpl; auto.
Qed.


End Step.

(** ** The classifier *)

(** C2: the class and color depend on the rake alone and are one of four
    pairs: Normal exactly on [-120, -60], Thrust exactly on [60, 120],
    Strike-Slip exactly on [-30, 30] and where |rake| >= 150, Oblique
    everywhere else. *)
Theorem classify_four_way (rake : pyfloat) :
  (classify_and_color_by_rake rake = (Normal, green)
     <-> in_range (-120) (-60) rake = true)
  /\ (classify_and_color_by_rake rake = (Thrust, red)
     <-> in_range 60 120 rake = true)
  /\ (classify_and_color_by_rake rake = (StrikeSlip, blue)
     <-> in_range (-30) 30 rake = true
         \/ fle (float_of_Z 150) (SFabs rake) = true)
  /\ (classify_and_color_by_rake rake = (Oblique, yellow)
     <-> in_range (-120) (-60) rake = false
         /\ in_range 60 120 rake = false
         /\ in_range (-30) 30 rake = false
         /\ fle (float_of_Z 150) (SFabs rake) = false)
  /\ In (classify_and_color_by_rake rake)
        [(Normal, green); (Thrust, red); (StrikeSlip, blue);
         (Oblique, yellow)].
Proof.
  rewrite classify_unfold.
  pose proof (normal_not_thrust rake) as NT.
  pose proof (strike_slip_not_normal rake) as SN.
  pose proof (strike_slip_not_thrust rake) as ST.
  unfold strike_slip_range in *.
  rewrite <- orb_true_iff, <- orb_false_iff.
  destruct (in_range (-120) (-60) rake), (in_range 60 120 rake),
    (in_range (-30) 30 rake || fle (float_of_Z 150) (SFabs rake));
    simpl; repeat split; intros; try congruence; try tauto;
    try (specialize (NT eq_refl)); try (specialize (SN eq_refl));
    try (specialize (ST eq_refl)); try congruence; intuition congruence.
Qed.

(** ** The record grouper *)

(** C4, as amended: the chunks partition the stripped non-empty lines in
    input order, no chunk is empty, blank lines are in no chunk, and a new
    chunk starts at each line that begins with a sentinel and nowhere
    else: every chunk after the first begins with a sentinel and no chunk
    has one after its first line, so that the lines before the first
    sentinel form a first chunk of their own. *)
Theorem group_lines_partition (lines : list str) :
  concat (group_lines lines) = clean_lines lines
  /\ Forall (fun chunk => chunk <> []) (group_lines lines)
  /\ Forall no_sentinel_inside (group_lines lines)
  /\ Forall starts_with_sentinel (tl (group_lines lines)).
Proof.
  pose proof (fold_group_step_grouping lines [] [] [] grouping_start) as H.
  unfold group_lines. simpl in H.
  destruct (fold_left group_step lines ([], [])) as [events cur].
  destruct H as [Hc Hn Hi Hh]. simpl in *.
  destruct cur as [|c cur]; simpl.
  - rewrite app_nil_r in Hc. apply Forall_app in Hi. destruct Hi as [Hi _].
    repeat split; try assumption.
    destruct events as [|e es]; simpl in *; [constructor|].
    apply Forall_app in Hh. destruct Hh as [Hh _]. exact Hh.
  - repeat split; try assumption.
    + rewrite concat_app. simpl. rewrite app_nil_r. exact Hc.
    + apply Forall_app. split; [exact Hn|].
      constructor; [congruence | constructor].
Qed.

(** * Concrete runs *)

Section Runs.

Import Sample.

#[local] Existing Instance externals.

(** C1, as stated, fails on a first event whose latitude is not a
    number, with a usable fifth line or with one of four tokens: the
    event is counted as skipped and no point is added. *)
Lemma unparsable_latitude_is_skipped :
  (5 <= List.length bad_latitude_event)%nat
  /\ (exists pde_line,
        py_index bad_latitude_event 0 = Some pde_line
        /\ py_index (split pde_line) 3 = Some (lit "abc"))
  /\ float_of_str (lit "abc") = None
  /\ (exists final,
        run (file_of bad_latitude_event) = Saved final
        /\ no_fm_points (doc final) = []
        /\ fm_points (doc final) = []
        /\ counters final = (0, 0, 1)%nat)
  /\ (5 <= List.length bad_latitude_no_mechanism_event)%nat
  /\ (exists sdr_line,
        py_index bad_latitude_no_mechanism_event 4 = Some sdr_line
        /\ List.length (split sdr_line) = 4%nat)
  /\ (exists final,
        run (file_of bad_latitude_no_mechanism_event) = Saved final
        /\ no_fm_points (doc final) = []
        /\ fm_points (doc final) = []
        /\ counters final = (0, 0, 1)%nat).
Proof.
  split; [vm_compute; lia|].
  split; [eexists; split; reflexivity|].
  split; [reflexivity|].
  split; [eexists; split; [reflexivity|]; vm_compute; repeat split|].
  split; [vm_compute; lia|].
  split; [eexists; split; reflexivity|].
  eexists. split; [reflexivity|]. vm_compute. repeat split.
Qed.

Lemma fallback_point_witness :
  (5 <= List.length no_mechanism_event)%nat
  /\ pde_of no_mechanism_event sample_time (float_lit "10.5")
       (float_lit "-20.25") (float_lit "33.0") (float_lit "6.0")
  /\ no_mechanism no_mechanism_event
  /\ emitted
       (InFallback
          (no_fm_point sample_time (float_lit "10.5") (float_lit "-20.25")
             (float_lit "33.0") (float_lit "6.0")))
       start (process_event 0 no_mechanism_event start)
  /\ no_fm_points (doc (process_event 0 no_mechanism_event start))
     = [no_fm_point sample_time (float_lit "10.5") (float_lit "-20.25")
          (float_lit "33.0") (float_lit "6.0")].
Proof.
  assert (Hlen : (5 <= List.length no_mechanism_event)%nat)
    by (simpl; lia).
  assert (Hpde : pde_of no_mechanism_event sample_time (float_lit "10.5")
                   (float_lit "-20.25") (float_lit "33.0")
                   (float_lit "6.0")).
  { unfold pde_of. repeat eexists; reflexivity. }
  assert (Hno : no_mechanism no_mechanism_event).
  { unfold no_mechanism. eexists. split; [reflexivity|].
    left. simpl. lia. }
  pose proof (fallback_point_when_no_mechanism 0 no_mechanism_event start
                sample_time (float_lit "10.5") (float_lit "-20.25")
                (float_lit "33.0") (float_lit "6.0") Hlen Hpde Hno)
    as (Hem & _ & _ & Hpts).
  repeat split; try assumption; try apply Hem.
Defined.

Lemma classify_witness :
  in_range 60 120 (float_lit "90") = true
  /\ classify_and_color_by_rake (float_lit "90") = (Thrust, red).
Proof.
  assert (H : in_range 60 120 (float_lit "90") = true) by reflexivity.
  split; [exact H|].
  apply (proj2 (proj1 (proj2 (classify_four_way (float_lit "90"))))).
  exact H.
Defined.

Lemma fields_witness :
  split (nth 0 thrust_event [])
  = [ lit "PDEQ"; lit "2020/01/02"; lit "03:04:05.6"; lit "10.5";
      lit "-20.25"; lit "33.0"; lit "5.5"; lit "6.0" ]
    ++ [ lit "NEAR"; lit "SOMEWHERE" ]
  /\ split (nth 4 thrust_event [])
     = [ lit "V10"; lit "1.0"; lit "10"; lit "100"; lit "2.0"; lit "20";
         lit "200"; lit "3.0"; lit "30"; lit "300"; lit "1.0e24" ]
       ++ [ lit "200"; lit "45"; lit "90"; lit "20"; lit "45"; lit "90" ]
  /\ vars (snd (try_body 0 thrust_event start))
     = mkLocals (Some sample_time) (Some (float_lit "10.5"))
         (Some (float_lit "-20.25")) (Some (float_lit "33.0"))
         (Some (float_lit "6.0")) (Some (lit "NEAR SOMEWHERE"))
         (Some (float_lit "200")) (Some (float_lit "45"))
         (Some (float_lit "90")).
Proof.
  split; [reflexivity|]. split; [reflexivity|].
  apply (fields_at_fixed_positions 0
           (nth 0 thrust_event []) (nth 1 thrust_event [])
           (nth 2 thrust_event []) (nth 3 thrust_event [])
           (nth 4 thrust_event []) [] start
           (lit "PDEQ") (lit "2020/01/02") (lit "03:04:05.6") (lit "10.5")
           (lit "-20.25") (lit "33.0") (lit "5.5") (lit "6.0")
           [lit "NEAR"; lit "SOMEWHERE"]
           [ lit "V10"; lit "1.0"; lit "10"; lit "100"; lit "2.0"; lit "20";
             lit "200"; lit "3.0"; lit "30"; lit "300"; lit "1.0e24" ]
           (lit "200") (lit "45") (lit "90") (lit "20") (lit "45")
           (lit "90"));
    reflexivity.
Defined.

(** C4, as stated, fails on a file with a title line before the first
    record: the title is a chunk of its own, not part of the chunk of the
    first sentinel. *)
Lemma title_line_is_a_chunk_of_its_own :
  group_lines titled_file
  = [ [lit "CATALOG EXPORT"]; [lit "PDEQ 2020/01/02 03:04:05.6"] ]
  /\ ~ (exists chunk rest,
          group_lines titled_file = chunk :: rest
          /\ In (lit "CATALOG EXPORT") chunk
          /\ In (lit "PDEQ 2020/01/02 03:04:05.6") chunk).
Proof.
  assert (H : group_lines titled_file
              = [ [lit "CATALOG EXPORT"];
                  [lit "PDEQ 2020/01/02 03:04:05.6"] ]) by reflexivity.
  split; [exact H|].
  intros (chunk & rest & Hg & _ & Hin).
  rewrite H in Hg. inversion Hg; subst chunk.
  destruct Hin as [Hin|[]]. discriminate Hin.
Qed.



Lemma exceptions_witness :
  try_body 0 no_mechanism_event start
  = (Raise ValueError_no_focal_mechanism,
     snd (try_body 0 no_mechanism_event start))
  /\ ((exists p,
         emitted (InFallback p) start
           (process_event 0 no_mechanism_event start))
      \/ emitted Nothing start (process_event 0 no_mechanism_event start))
  /\ run (file_of (no_mechanism_event ++ thrust_event))
     = Saved (process_events 1 [thrust_event]
                (process_event 0 no_mechanism_event start)).
Proof.
  assert (H : try_body 0 no_mechanism_event start
              = (Raise ValueError_no_focal_mechanism,
                 snd (try_body 0 no_mechanism_event start)))
    by (vm_compute; reflexivity).
  destruct (exceptions_never_abort basename [] no_mechanism_event
              [thrust_event] ValueError_no_focal_mechanism
              (snd (try_body 0 no_mechanism_event start)) H)
    as (Hcaught & _ & Hrun).
  split; [exact H|]. split; [exact Hcaught|].
  apply (Hrun (file_of (no_mechanism_event ++ thrust_event)) saves);
    reflexivity.
Defined.



(** After a complete event, a later event whose latitude is not a number
    gets a fallback point with its own time and the earlier event's
    magnitude, depth, latitude and longitude. *)
Example earlier_values_in_fallback_point :
  no_fm_points
    (doc (process_events 0 [thrust_event; later_bad_latitude_event] start))
  = [ no_fm_point (lit "2021/03/04 05:06:07.8") (float_lit "10.5")
        (float_lit "-20.25") (float_lit "33.0") (float_lit "6.0") ].
Proof. vm_compute. reflexivity. Qed.

(** The fallback point of the event without mechanism, in full. *)
Example no_mechanism_placemark :
  no_fm_points (doc (process_event 0 no_mechanism_event start))
  = [ mkPoint [Text (lit "M "); Repr (float_lit "6.0")]
        (Some red_circle)
        (Some (no_fm_description sample_time (float_lit "6.0")
                 (float_lit "33.0") (float_lit "10.5")
                 (float_lit "-20.25")))
        (Some (float_lit "-20.25", float_lit "10.5",
               float_lit "-33000")) ].
Proof. vm_compute. reflexivity. Qed.

(** The text of the legend, as in the source. *)
Example document_description_text :
  document_description
  = lit "<![CDATA[<b>Beachball Color Legend (by Fault Type)</b><br>"
    ++ lit "<br><font color=" ++ [quote] ++ lit "red" ++ [quote]
    ++ lit ">" ++ [black_square] ++ lit "</font> Normal"
    ++ lit "<br><font color=" ++ [quote] ++ lit "blue" ++ [quote]
    ++ lit ">" ++ [black_square] ++ lit "</font> Thrust (Reverse)"
    ++ lit "<br><font color=" ++ [quote] ++ lit "green" ++ [quote]
    ++ lit ">" ++ [black_square] ++ lit "</font> Strike-Slip"
    ++ lit "<br><font color=" ++ [quote] ++ lit "yellow" ++ [quote]
    ++ lit ">" ++ [black_square] ++ lit "</font> Oblique"
    ++ lit "]]>".
Proof. vm_compute. reflexivity. Qed.

End Runs.

(** * Further properties of the event loop *)

Section More.

Context {ext : Externals}.

Lemma sdr_of_unique event_lines s d r s' d' r' :
  sdr_of event_lines s d r -> sdr_of event_lines s' d' r' ->
  (s, d, r) = (s', d', r').
Proof.
  intros (l & s6 & s5 & s4 & H4 & I6 & I5 & I4 & F6 & F5 & F4)
         (l' & t6 & t5 & t4 & H4' & J6 & J5 & J4 & G6 & G5 & G4).
  assert (l' = l) by congruence. subst l'.
  assert (t6 = s6) by congruence. assert (t5 = s5) by congruence.
  assert (t4 = s4) by congruence. subst. congruence.
Qed.

(** With both lines usable, the [try] block reaches the zero test with
    every variable assigned from this event. *)
Lemma try_body_complete i event_lines st ts la lo de ma s d r :
  pde_of event_lines ts la lo de ma ->
  sdr_of event_lines s d r ->
  exists loc,
    try_body i event_lines st =
    (if feq s (float_of_Z 0) && feq d (float_of_Z 0)
     then raise ValueError_no_focal_mechanism
     else emit_with_fm i ts la lo de ma s d r)
      (extracted st ts la lo de ma loc s d r).
Proof.
  intros (pde_line & p1 & p2 & p3 & p4 & p5 & p7 & H0 & H1 & H2 & H3 & H4
          & H5 & H7 & Hts & F3 & F4 & F5 & F7)
         (sdr_line & s6 & s5 & s4 & L4 & I6 & I5 & I4 & G6 & G5 & G4).
  exists (join (lit " ") (py_slice_from 8 (split pde_line))).
  unfold try_body.
  erewrite bind_ok by (apply index_ok; eassumption).
  erewrite bind_ok by (apply index_ok; eassumption).
  erewrite bind_ok
    by (apply extract_pde_ok with (p1 := p1) (p2 := p2) (p3 := p3)
          (p4 := p4) (p5 := p5) (p7 := p7); eassumption).
  assert (H6 : (6 <=? List.length (split sdr_line))%nat = true).
  { apply Nat.leb_le. apply py_index_negative_some in I6; lia. }
  rewrite H6.
  erewrite bind_ok
    by (apply extract_sdr_ok with (s6 := s6) (s5 := s5) (s4 := s4);
        eassumption).
  subst ts. reflexivity.
Qed.


(** X1: an event of at least five lines whose first line yields the
    display fields, whose fifth line yields strike, dip and rake not both
    zero, and whose diagram is rendered, gets exactly one point, in the
    folder of its rake's class, with the name, icon, description and
    coordinates of this event; one diagram is requested, and nothing is
    counted but one event with focal mechanism. *)
Theorem complete_event_gets_fault_folder_point
    (i : nat) (event_lines : list str) (st : state)
    (ts : str) (la lo de ma s d r : pyfloat) :
  (5 <= List.length event_lines)%nat ->
  pde_of event_lines ts la lo de ma ->
  sdr_of event_lines s d r ->
  feq s (float_of_Z 0) && feq d (float_of_Z 0) = false ->
  beachball_raises (the_call i s d r) = false ->
  emitted
    (InFaultFolder (fst (classify_and_color_by_rake r))
       (fm_point i (fst (classify_and_color_by_rake r))
          ts la lo de ma s d r))
    st (process_event i event_lines st)
  /\ beachball_calls (process_event i event_lines st)
     = beachball_calls st ++ [the_call i s d r].
Proof.
  intros Hlen Hpde Hsdr Hnz Hok.
  destruct (try_body_complete i event_lines st _ _ _ _ _ _ _ _ Hpde Hsdr)
    as (loc & Htry).
  unfold process_event.
  assert (E5 : (List.length event_lines <? 5)%nat = false)
    by (apply Nat.ltb_ge; exact Hlen).
  rewrite E5, Htry, Hnz, emit_with_fm_run. cbv zeta. rewrite Hok.
  split; [|reflexivity]. split; reflexivity.
Qed.

(** X2: when the renderer raises on such an event, the event is not
    lost: it gets exactly one point in the fallback folder, with the
    red-circle icon and the time, magnitude, depth and position of this
    event, and the diagram request stays on record. *)
Theorem failed_diagram_goes_to_fallback
    (i : nat) (event_lines : list str) (st : state)
    (ts : str) (la lo de ma s d r : pyfloat) :
  (5 <= List.length event_lines)%nat ->
  pde_of event_lines ts la lo de ma ->
  sdr_of event_lines s d r ->
  feq s (float_of_Z 0) && feq d (float_of_Z 0) = false ->
  beachball_raises (the_call i s d r) = true ->
  emitted (InFallback (no_fm_point ts la lo de ma)) st
    (process_event i event_lines st)
  /\ beachball_calls (process_event i event_lines st)
     = beachball_calls st ++ [the_call i s d r].
Proof.
  intros Hlen Hpde Hsdr Hnz Hraise.
  destruct (try_body_complete i event_lines st _ _ _ _ _ _ _ _ Hpde Hsdr)
    as (loc & Htry).
  unfold process_event.
  assert (E5 : (List.length event_lines <? 5)%nat = false)
    by (apply Nat.ltb_ge; exact Hlen).
  rewrite E5, Htry, Hnz, emit_with_fm_run. cbv zeta. rewrite Hraise.
  erewrite fallback_run by reflexivity.
  split; [|reflexivity]. split; reflexivity.
Qed.


(** ** Events without a usable first line *)

Lemma try_body_without_pde i event_lines st :
  (forall ts la lo de ma, ~ pde_of event_lines ts la lo de ma) ->
  exists e st1,
    try_body i event_lines st = (Raise e, st1)
    /\ same_output st st1 /\ mag (vars st1) = mag (vars st).
Proof.
  intros Hno. unfold try_body, bind, index, ret, raise.
  destruct (py_index event_lines 0) as [pde_line|] eqn:E0; cbv beta iota.
  2:{ eexists _, _. repeat split. }
  destruct (py_index event_lines 4) as [sdr_line|] eqn:E4; cbv beta iota.
  2:{ eexists _, _. repeat split. }
  pose proof (extract_pde_spec (split pde_line) st) as Hp.
  destruct (extract_pde (split pde_line) st)
    as [[[[[[ts la] lo] de] ma]|e] st1].
  - destruct Hp as (_ & _ & p1 & p2 & p3 & p4 & p5 & p7 & Htok).
    exfalso. apply (Hno ts la lo de ma).
    exists pde_line, p1, p2, p3, p4, p5, p7. intuition.
  - destruct Hp as (Hsame & _ & Hmag & _). eexists _, _. eauto.
Qed.

Lemma unusable_step i event_lines st :
  mag (vars st) = None -> unusable event_lines ->
  emitted Nothing st (process_event i event_lines st)
  /\ mag (vars (process_event i event_lines st)) = None
  /\ beachball_calls (process_event i event_lines st) = beachball_calls st.
Proof.
  intros Hmag Hun. unfold process_event.
  destruct (List.length event_lines <? 5)%nat eqn:E5.
  { repeat split. exact Hmag. }
  destruct Hun as [Hlen|Hno]; [apply Nat.ltb_ge in E5; lia|].
  destruct (try_body_without_pde i event_lines st Hno)
    as (e & st1 & Ht & (Hd & Hc & Hn) & Hm).
  rewrite Ht, fallback_unbound by congruence.
  unfold emitted, counters in *. simpl. inversion Hn.
  repeat split; congruence.
Qed.

Lemma unusable_run events :
  forall i st,
    mag (vars st) = None -> Forall unusable events ->
    doc (process_events i events st) = doc st
    /\ beachball_calls (process_events i events st) = beachball_calls st
    /\ counters (process_events i events st)
       = (events_processed_with_fm st, events_processed_without_fm st,
          (events_skipped st + List.length events)%nat).
Proof.
  induction events as [|ev events IH]; intros i st Hmag Hall; simpl.
  - unfold counters. rewrite Nat.add_0_r. repeat split.
  - inversion Hall as [|? ? Hev Hrest]; subst.
    destruct (unusable_step i ev st Hmag Hev)
      as ((Hd & Hn) & Hm & Hc).
    destruct (IH (S i) (process_event i ev st) Hm Hrest)
      as (Hd' & Hc' & Hn').
    unfold counters in *. simpl in Hn. inversion Hn as [[Hw Hf Hs]].
    rewrite Hd', Hc', Hn', Hw, Hf, Hs, Nat.add_succ_r.
    repeat split; try congruence. exact Hd.
Qed.

(** X3: when no event of the input has a usable first line (fewer than
    five lines, too few tokens, or a latitude, longitude, depth or
    magnitude that is not a number), the run emits no placemark and
    requests no diagram: the document is the empty one and every event is
    counted as skipped, whatever the fifth lines hold. *)
Theorem nothing_emitted_without_usable_first_lines
    (basename : str) (lines : list str) (save_raises : kml -> bool) :
  Forall unusable (group_lines lines) ->
  exists final,
    at_save (create_kml_from_custom_ndk basename (Some lines) false
               save_raises) = Some final
    /\ doc final = initial_kml basename
    /\ beachball_calls final = []
    /\ counters final = (0, 0, List.length (group_lines lines))%nat.
Proof.
  intros Hall. eexists. split; [apply at_save_run|].
  destruct (unusable_run (group_lines lines) 0 (initial_state basename)
              eq_refl Hall) as (Hd & Hc & Hn).
  repeat split; assumption.
Qed.

(** ** Events after one that was extracted *)

Lemma extract_pde_keeps_bound parts st :
  display_bound (vars st) ->
  display_bound (vars (snd (extract_pde parts st))).
Proof.
  intros Hb. pose proof (extract_pde_spec parts st) as Hp.
  destruct (extract_pde parts st) as [[[[[[ts la] lo] de] ma]|e] st1];
    simpl.
  - destruct Hp as (_ & Hv & _). rewrite Hv.
    unfold display_bound, display. simpl. repeat eexists.
  - destruct Hp as (_ & Hw & Hmag & _).
    destruct (Hw (or_intror Hb)) as [Hnone|Hb1]; [|exact Hb1].
    destruct Hb as (ts & la & lo & de & ma & Hdis).
    inversion Hdis. congruence.
Qed.

Lemma try_body_keeps_bound i event_lines st :
  display_bound (vars st) ->
  display_bound (vars (snd (try_body i event_lines st))).
Proof.
  intros Hb. unfold try_body, bind, index, ret, raise.
  destruct (py_index event_lines 0) as [pde_line|]; cbv beta iota;
    [|exact Hb].
  destruct (py_index event_lines 4) as [sdr_line|]; cbv beta iota;
    [|exact Hb].
  pose proof (extract_pde_keeps_bound (split pde_line) st Hb) as Hb1.
  destruct (extract_pde (split pde_line) st)
    as [[[[[[ts la] lo] de] ma]|e] st1]; simpl in Hb1; [|exact Hb1].
  destruct (6 <=? List.length (split sdr_line))%nat; [|exact Hb1].
  pose proof (extract_sdr_spec (split sdr_line) st1) as Hs.
  assert (Hb2 : display_bound (vars (snd (extract_sdr (split sdr_line)
                                            st1)))).
  { destruct (extract_sdr (split sdr_line) st1) as [[[[s d] r]|e] st2];
      simpl; destruct Hs as (_ & (Hdis & _) & _);
      unfold display_bound; rewrite Hdis; exact Hb1. }
  destruct (extract_sdr (split sdr_line) st1) as [[[[s d] r]|e] st2];
    simpl in Hb2; [|exact Hb2].
  destruct (feq s (float_of_Z 0) && feq d (float_of_Z 0)); [exact Hb2|].
  rewrite emit_with_fm_run. cbv zeta.
  destruct (beachball_raises (the_call i s d r)); exact Hb2.
Qed.

Lemma bound_step i event_lines st :
  display_bound (vars st) ->
  (5 <= List.length event_lines)%nat ->
  display_bound (vars (process_event i event_lines st))
  /\ events_skipped (process_event i event_lines st) = events_skipped st
  /\ exists p,
       (exists t, emitted (InFaultFolder t p) st
                    (process_event i event_lines st))
       \/ emitted (InFallback p) st (process_event i event_lines st).
Proof.
  intros Hb Hlen.
  destruct (process_event_spec i event_lines st (or_intror Hb))
    as (Hwf & _ & _ & e & Hout & Hem).
  pose proof (try_body_keeps_bound i event_lines st Hb) as Hkeep.
  destruct Hout as [ts la lo de ma s d r _ _ Hfm
                   |e st1 ts la lo de ma _ _ Hdis
                   |Hshort _
                   |e st1 _ Ht Hnone _].
  - destruct Hfm as [_ _ _ _ Hdis _ _ _]. split; [|split].
    + unfold display_bound. rewrite Hdis. repeat eexists.
    + destruct Hem as [_ Hn]. unfold counters in Hn. simpl in Hn.
      inversion Hn. reflexivity.
    + eexists. left. eexists. exact Hem.
  - split; [|split].
    + unfold display_bound. rewrite Hdis. repeat eexists.
    + destruct Hem as [_ Hn]. unfold counters in Hn. simpl in Hn.
      inversion Hn. reflexivity.
    + eexists. right. exact Hem.
  - lia.
  - rewrite Ht in Hkeep. simpl in Hkeep.
    destruct Hkeep as (ts & la & lo & de & ma & Hdis).
    inversion Hdis. congruence.
Qed.

Lemma short_step i event_lines st :
  (List.length event_lines < 5)%nat ->
  process_event i event_lines st = incr_skipped st.
Proof.
  intros H. unfold process_event. apply Nat.ltb_lt in H. rewrite H.
  reflexivity.
Qed.

Lemma bound_run events :
  forall i st,
    display_bound (vars st) ->
    display_bound (vars (process_events i events st))
    /\ events_skipped (process_events i events st)
       = (events_skipped st + List.length (filter short events))%nat.
Proof.
  induction events as [|ev events IH]; intros i st Hb; simpl.
  - rewrite Nat.add_0_r. split; [exact Hb | reflexivity].
  - unfold short at 1.
    destruct (List.length ev <? 5)%nat eqn:E5.
    + apply Nat.ltb_lt in E5. rewrite (short_step i ev st E5).
      destruct (IH (S i) (incr_skipped st) Hb) as (Hb' & Hs').
      split; [exact Hb'|]. rewrite Hs'. simpl. lia.
    + apply Nat.ltb_ge in E5.
      destruct (bound_step i ev st Hb E5) as (Hb1 & Hs1 & _).
      destruct (IH (S i) (process_event i ev st) Hb1) as (Hb' & Hs').
      split; [exact Hb'|]. rewrite Hs', Hs1. reflexivity.
Qed.

(** X4: once an event of at least five lines has yielded the display
    fields of its first line, no later event of at least five lines is
    skipped, whatever it holds: each gets a point, and the skip counter
    grows by the number of later events of fewer than five lines only. *)
Theorem only_short_events_skipped_after_a_usable_one
    (basename : str) (pre : list (list str)) (event_lines : list str)
    (post : list (list str)) (ts : str) (la lo de ma : pyfloat) :
  (5 <= List.length event_lines)%nat ->
  pde_of event_lines ts la lo de ma ->
  let st := process_events 0 (pre ++ [event_lines])
              (initial_state basename) in
  let final := process_events 0 (pre ++ event_lines :: post)
                 (initial_state basename) in
  events_skipped final
  = (events_skipped st + List.length (filter short post))%nat
  /\ (List.length (all_points (doc final))
      = List.length (all_points (doc st))
        + List.length (filter (fun ev => negb (short ev)) post))%nat.
Proof.
  intros Hlen Hpde st final.
  assert (Hb : display_bound (vars st)).
  { assert (Hst : st = process_event (List.length pre) event_lines
                          (process_events 0 pre (initial_state basename)))
      by (unfold st; rewrite process_events_app; reflexivity).
    rewrite Hst.
    destruct (reachable_inv basename pre) as [Hwf _ _ _ _ _ _].
    destruct (process_event_spec (List.length pre) event_lines _ Hwf)
      as (_ & Hfresh & _).
    unfold display_bound. rewrite (Hfresh _ _ _ _ _ Hlen Hpde).
    repeat eexists. }
  assert (Hfinal : final
                   = process_events (0 + List.length (pre ++ [event_lines]))
                       post st).
  { unfold final, st.
    replace (pre ++ event_lines :: post)
      with ((pre ++ [event_lines]) ++ post)
      by (rewrite <- app_assoc; reflexivity).
    apply process_events_app. }
  destruct (bound_run post (0 + List.length (pre ++ [event_lines])) st Hb)
    as (_ & Hskip).
  rewrite <- Hfinal in Hskip. split; [exact Hskip|].
  pose proof (reachable_inv basename (pre ++ event_lines :: post)) as Hi.
  pose proof (reachable_inv basename (pre ++ [event_lines])) as Hi0.
  fold final in Hi. fold st in Hi0.
  destruct Hi as [_ Hw Hf Ht _ _ _]. destruct Hi0 as [_ Hw0 Hf0 Ht0 _ _ _].
  rewrite !all_points_length.
  rewrite !length_app in Ht, Ht0. simpl in Ht, Ht0.
  assert (Hsplit : (List.length post
                    = List.length (filter short post)
                      + List.length (filter (fun ev => negb (short ev))
                                       post))%nat).
  { clear. induction post as [|ev post IH]; simpl; [reflexivity|].
    destruct (short ev); simpl; lia. }
  lia.
Qed.


Lemma bind_raise {A B} (m : M A) (k : A -> M B) st e st' :
  m st = (Raise e, st') -> bind m k st = (Raise e, st').
Proof. intros H. unfold bind. rewrite H. reflexivity. Qed.

Lemma float_raise tok st :
  float_of_str tok = None -> float tok st = (Raise (ValueError_float tok), st).
Proof. intros H. unfold float. rewrite H. reflexivity. Qed.

(** X5: after an event that was extracted, an event whose latitude token
    is not a number gets a fallback point that shows its own time with
    the magnitude, depth, latitude and longitude the variables still hold
    from the earlier event. *)
Theorem bad_latitude_reuses_earlier_values
    (i : nat) (event_lines : list str) (st : state)
    (pde_line p1 p2 p3 ts : str) (la lo de ma : pyfloat) :
  (5 <= List.length event_lines)%nat ->
  py_index event_lines 0 = Some pde_line ->
  py_index (split pde_line) 1 = Some p1 ->
  py_index (split pde_line) 2 = Some p2 ->
  py_index (split pde_line) 3 = Some p3 ->
  float_of_str p3 = None ->
  display (vars st) = (Some ts, Some la, Some lo, Some de, Some ma) ->
  emitted (InFallback (no_fm_point (p1 ++ lit " " ++ p2) la lo de ma)) st
    (process_event i event_lines st)
  /\ display (vars (process_event i event_lines st))
     = (Some (p1 ++ lit " " ++ p2), Some la, Some lo, Some de, Some ma).
Proof.
  intros Hlen H0 H1 H2 H3 F3 Hdis.
  assert (Dla : lat (vars st) = Some la) by (inversion Hdis; reflexivity).
  assert (Dlo : lon (vars st) = Some lo) by (inversion Hdis; reflexivity).
  assert (Dde : depth (vars st) = Some de)
    by (inversion Hdis; reflexivity).
  assert (Dma : mag (vars st) = Some ma) by (inversion Hdis; reflexivity).
  destruct (py_index_in_bounds event_lines 4) as [sdr_line H4]; [lia|].
  assert (Hpde : extract_pde (split pde_line) st
                 = (Raise (ValueError_float p3),
                    mkState
                      (mkLocals (Some (p1 ++ lit " " ++ p2)) (Some la)
                         (Some lo) (Some de) (Some ma)
                         (location (vars st)) (strike (vars st))
                         (dip (vars st)) (rake (vars st)))
                      (doc st) (beachball_calls st)
                      (events_processed_with_fm st)
                      (events_processed_without_fm st)
                      (events_skipped st))).
  { unfold extract_pde.
    erewrite bind_ok by (apply index_ok; eassumption).
    erewrite bind_ok by (apply index_ok; eassumption).
    erewrite bind_ok by reflexivity. simpl.
    erewrite bind_ok by (apply index_ok; eassumption).
    erewrite bind_raise by (apply float_raise; exact F3).
    rewrite Dla, Dlo, Dde, Dma. reflexivity. }
  assert (Htry : try_body i event_lines st
                 = (Raise (ValueError_float p3),
                    snd (extract_pde (split pde_line) st))).
  { unfold try_body.
    erewrite bind_ok by (apply index_ok; eassumption).
    erewrite bind_ok by (apply index_ok; eassumption).
    erewrite bind_raise by exact Hpde. rewrite Hpde. reflexivity. }
  unfold process_event.
  assert (E5 : (List.length event_lines <? 5)%nat = false)
    by (apply Nat.ltb_ge; exact Hlen).
  rewrite E5, Htry, Hpde. cbn [snd].
  erewrite fallback_run by reflexivity.
  split; [split|]; reflexivity.
Qed.


(** ** The document only grows *)

Lemma folder_extends_refl f : folder_extends f f.
Proof. exists []. rewrite app_nil_r. reflexivity. Qed.

Lemma folder_extends_trans f g h :
  folder_extends f g -> folder_extends g h -> folder_extends f h.
Proof.
  intros [a Ha] [b Hb]. exists (a ++ b). rewrite Hb, Ha, app_assoc.
  reflexivity.
Qed.

Lemma extends_refl k : extends k k.
Proof.
  split; [reflexivity|]. unfold folders.
  repeat constructor; apply folder_extends_refl.
Qed.

Lemma extends_trans k1 k2 k3 :
  extends k1 k2 -> extends k2 k3 -> extends k1 k3.
Proof.
  intros [F12 P12] [F23 P23]. split; [congruence|].
  unfold folders in *.
  inversion P12 as [|? ? ? ? A1 P12a]; subst.
  inversion P12a as [|? ? ? ? A2 P12b]; subst.
  inversion P12b as [|? ? ? ? A3 P12c]; subst.
  inversion P12c as [|? ? ? ? A4 P12d]; subst.
  inversion P12d as [|? ? ? ? A5 _]; subst.
  inversion P23 as [|? ? ? ? B1 P23a]; subst.
  inversion P23a as [|? ? ? ? B2 P23b]; subst.
  inversion P23b as [|? ? ? ? B3 P23c]; subst.
  inversion P23c as [|? ? ? ? B4 P23d]; subst.
  inversion P23d as [|? ? ? ? B5 _]; subst.
  repeat constructor; eapply folder_extends_trans; eassumption.
Qed.

Lemma extends_emission e k : extends k (apply_emission e k).
Proof.
  destruct e as [t p|p|]; [destruct t| |]; split; try reflexivity;
    unfold folders; simpl;
    repeat constructor;
    first [ apply folder_extends_refl | eexists; reflexivity ].
Qed.

Lemma extends_run events :
  forall i st,
    wf_locals (vars st) ->
    extends (doc st) (doc (process_events i events st)).
Proof.
  induction events as [|ev events IH]; intros i st Hwf; simpl.
  - apply extends_refl.
  - destruct (process_event_spec i ev st Hwf)
      as (Hwf' & _ & _ & e & _ & Hdoc & _).
    eapply extends_trans; [|apply IH; exact Hwf'].
    rewrite Hdoc. apply extends_emission.
Qed.

(** X6: the run only ever appends points: at any moment the name of the
    document, its legend, the titles of its folders and every point
    emitted so far are what they will be in the document handed to
    [kml.save], each point at the place it has in its folder. *)
Theorem document_only_grows
    (basename : str) (pre post : list (list str)) :
  extends (doc (process_events 0 pre (initial_state basename)))
    (doc (process_events 0 (pre ++ post) (initial_state basename)))
  /\ frame_of (doc (process_events 0 (pre ++ post) (initial_state basename)))
     = frame_of (initial_kml basename).
Proof.
  split.
  - rewrite process_events_app. apply extends_run.
    destruct (reachable_inv basename pre) as [Hwf _ _ _ _ _ _].
    exact Hwf.
  - destruct (extends_run (pre ++ post) 0 (initial_state basename))
      as [Hframe _]; [left; reflexivity | exact Hframe].
Qed.

(** ** Every point is finished and filed under its class *)

Lemma folder_map_emission e k t :
  folder_points (folder_map (apply_emission e k) t)
  = folder_points (folder_map k t)
    ++ match e with
       | InFaultFolder t' p =>
           if match t, t' with
              | Normal, Normal | Thrust, Thrust
              | StrikeSlip, StrikeSlip | Oblique, Oblique => true
              | _, _ => false
              end
           then [p] else []
       | _ => []
       end.
Proof.
  destruct e as [t' p|p|]; simpl.
  - destruct t, t'; simpl; rewrite ?app_nil_r; reflexivity.
  - destruct t; simpl; rewrite app_nil_r; reflexivity.
  - rewrite app_nil_r. reflexivity.
Qed.

Lemma fm_shaped_mono n m t p :
  (n <= m)%nat -> fm_shaped n t p -> fm_shaped m t p.
Proof.
  intros Hnm (i & ts & la & lo & de & ma & s & d & r & Hi & Ht & Hp).
  exists i, ts, la, lo, de, ma, s, d, r. repeat split; auto. lia.
Qed.

Lemma shaped_step n event_lines st :
  wf_locals (vars st) -> shaped n (doc st) ->
  shaped (S n) (doc (process_event n event_lines st)).
Proof.
  intros Hwf [Hfm Hno].
  destruct (process_event_spec n event_lines st Hwf)
    as (_ & _ & _ & e & Hout & Hdoc & _).
  rewrite Hdoc. split.
  - intros t. rewrite folder_map_emission. apply Forall_app. split.
    + eapply Forall_impl; [|apply Hfm].
      intros p. apply fm_shaped_mono. lia.
    + destruct Hout as [ts la lo de ma s d r _ _ _| | |];
        try constructor.
      destruct t, (fst (classify_and_color_by_rake r)) eqn:Ec;
        constructor; try constructor;
        exists n, ts, la, lo, de, ma, s, d, r; rewrite Ec; auto.
  - rewrite no_fm_points_emission.
    destruct Hout as [|e1 st1 ts la lo de ma _ _ _| |]; try exact Hno.
    apply Forall_app. split; [exact Hno|].
    constructor; [|constructor]. exists ts, la, lo, de, ma. reflexivity.
Qed.

Lemma shaped_run events :
  forall n st,
    wf_locals (vars st) -> shaped n (doc st) ->
    shaped (n + List.length events) (doc (process_events n events st)).
Proof.
  induction events as [|ev events IH]; intros n st Hwf Hsh; simpl.
  - rewrite Nat.add_0_r. exact Hsh.
  - replace (n + S (List.length events))%nat
      with (S n + List.length events)%nat by lia.
    apply IH.
    + destruct (process_event_spec n ev st Hwf) as (Hwf' & _). exact Hwf'.
    + apply shaped_step; assumption.
Qed.

(** X7: the document handed to [kml.save] holds finished points only.
    Every point of the fallback folder has the name, the red-circle icon,
    the description and the coordinates of an event without focal
    mechanism;
    every point of a fault-type folder has the name, description and
    coordinates of an event with focal mechanism, the diagram file of an
    event of the run as icon, and a rake whose class is the folder's. *)
Theorem points_are_finished_and_filed_by_class
    (basename : str) (lines : list str) (save_raises : kml -> bool) :
  exists final,
    at_save (create_kml_from_custom_ndk basename (Some lines) false
               save_raises) = Some final
    /\ (forall t p,
          In p (folder_points (folder_map (doc final) t)) ->
          exists i ts la lo de ma s d r,
            (i < List.length (group_lines lines))%nat
            /\ t = fst (classify_and_color_by_rake r)
            /\ p = fm_point i t ts la lo de ma s d r)
    /\ (forall p,
          In p (no_fm_points (doc final)) ->
          exists ts la lo de ma, p = no_fm_point ts la lo de ma).
Proof.
  eexists. split; [apply at_save_run|].
  destruct (shaped_run (group_lines lines) 0 (initial_state basename))
    as [Hfm Hno].
  - left. reflexivity.
  - split; [intros t; destruct t; constructor | constructor].
  - split.
    + intros t p Hin. specialize (Hfm t).
      rewrite Forall_forall in Hfm. apply (Hfm p Hin).
    + intros p Hin. rewrite Forall_forall in Hno. apply (Hno p Hin).
Qed.


(** ** Diagram files *)

Lemma lit_inj (s t : string) : lit s = lit t -> s = t.
Proof.
  unfold lit. intros H.
  rewrite <- (string_of_list_ascii_of_string s),
          <- (string_of_list_ascii_of_string t).
  f_equal. revert H.
  generalize (list_ascii_of_string s), (list_ascii_of_string t).
  induction l as [|a l IH]; intros [|b l'] H; simpl in H;
    try discriminate; [reflexivity|].
  inversion H as [[Hab Hl]].
  rewrite <- (ascii_N_embedding a), <- (ascii_N_embedding b), Hab.
  f_equal. apply IH. exact Hl.
Qed.

Lemma to_uint_nonnil (n : nat) : Nat.to_uint n <> Decimal.Nil.
Proof.
  intros H. pose proof (DecimalNat.Unsigned.of_to n) as Hn.
  rewrite H in Hn. simpl in Hn. subst n. discriminate H.
Qed.

Lemma of_nat_inj (n m : nat) : of_nat n = of_nat m -> n = m.
Proof.
  unfold of_nat. intros H. apply lit_inj in H.
  apply DecimalNat.Unsigned.to_uint_inj.
  pose proof (NilZero.usu _ (to_uint_nonnil n)) as Hn.
  pose proof (NilZero.usu _ (to_uint_nonnil m)) as Hm.
  rewrite H in Hn. congruence.
Qed.

Lemma beachball_filename_inj (i j : nat) :
  beachball_filename i = beachball_filename j -> i = j.
Proof.
  unfold beachball_filename, path_join. intros H.
  apply app_inv_head in H. apply app_inv_head in H.
  apply app_inv_head in H. apply app_inv_tail in H.
  apply of_nat_inj in H. lia.
Qed.

Lemma calls_inv_step n event_lines st :
  wf_locals (vars st) -> calls_inv n (beachball_calls st) ->
  calls_inv (S n) (beachball_calls (process_event n event_lines st)).
Proof.
  intros Hwf (Hall & Hnd & Hlen).
  assert (Hall' : Forall (fun c => exists j, (j < S n)%nat
                            /\ call_outfile c = beachball_filename j)
                    (beachball_calls st)).
  { eapply Forall_impl; [|exact Hall].
    intros c (j & Hj & Hc). exists j. split; [lia | exact Hc]. }
  destruct (process_event_spec n event_lines st Hwf)
    as (_ & _ & [Hc|(s & d & r & Hc)] & _); rewrite Hc.
  - repeat split; auto.
  - split; [|split].
    + apply Forall_app. split; [exact Hall'|].
      constructor; [|constructor]. exists n. split; [lia | reflexivity].
    + rewrite map_app. simpl.
      apply NoDup_app; [exact Hnd | constructor; [intros []|constructor] |].
      intros f Hin [Hf|[]]. subst f.
      apply in_map_iff in Hin. destruct Hin as (c & Hcf & Hcin).
      rewrite Forall_forall in Hall.
      destruct (Hall c Hcin) as (j & Hj & Hout).
      rewrite Hout in Hcf. apply beachball_filename_inj in Hcf. lia.
    + rewrite length_app. simpl. lia.
Qed.


Lemma calls_inv_run events :
  forall n st,
    wf_locals (vars st) -> calls_inv n (beachball_calls st) ->
    calls_inv (n + List.length events)
      (beachball_calls (process_events n events st)).
Proof.
  induction events as [|ev events IH]; intros n st Hwf Hinv; simpl.
  - rewrite Nat.add_0_r. exact Hinv.
  - replace (n + S (List.length events))%nat
      with (S n + List.length events)%nat by lia.
    apply IH.
    + destruct (process_event_spec n ev st Hwf) as (Hwf' & _). exact Hwf'.
    + apply calls_inv_step; assumption.
Qed.

(** X8: a run requests at most one diagram per event, each into the
    file named after the position of its event, and no two into the same
    file: no diagram of a run overwrites another. *)
Theorem diagram_files_are_distinct
    (basename : str) (lines : list str) (save_raises : kml -> bool) :
  exists final,
    at_save (create_kml_from_custom_ndk basename (Some lines) false
               save_raises) = Some final
    /\ NoDup (map call_outfile (beachball_calls final))
    /\ (List.length (beachball_calls final)
        <= List.length (group_lines lines))%nat
    /\ forall c,
         In c (beachball_calls final) ->
         exists j,
           (j < List.length (group_lines lines))%nat
           /\ call_outfile c
              = lit "assets/event_" ++ of_nat (j + 1) ++ lit "_fm.png".
Proof.
  eexists. split; [apply at_save_run|].
  destruct (calls_inv_run (group_lines lines) 0 (initial_state basename))
    as (Hall & Hnd & Hlen).
  - left. reflexivity.
  - repeat split; simpl; auto; constructor.
  - split; [exact Hnd|]. split; [exact Hlen|].
    intros c Hin. rewrite Forall_forall in Hall.
    destruct (Hall c Hin) as (j & Hj & Hout).
    exists j. split; [exact Hj|]. rewrite Hout. reflexivity.
Qed.

(** ** Diagrams and points with focal mechanism *)

Lemma fallback_calls st :
  wf_locals (vars st) ->
  beachball_calls (snd (fallback st)) = beachball_calls st.
Proof.
  intros [Hnone|(ts & la & lo & de & ma & Hdis)].
  - rewrite fallback_unbound by exact Hnone. reflexivity.
  - rewrite (fallback_run st _ _ _ _ _ Hdis). reflexivity.
Qed.

Lemma try_body_calls i event_lines st :
  match try_body i event_lines st with
  | (Ok _, st1) =>
      exists s d r,
        beachball_calls st1 = beachball_calls st ++ [the_call i s d r]
        /\ beachball_raises (the_call i s d r) = false
        /\ events_processed_with_fm st1 = S (events_processed_with_fm st)
  | (Raise _, st1) =>
      events_processed_with_fm st1 = events_processed_with_fm st
      /\ (beachball_calls st1 = beachball_calls st
          \/ exists s d r,
               beachball_calls st1 = beachball_calls st ++ [the_call i s d r]
               /\ beachball_raises (the_call i s d r) = true)
  end.
Proof.
  unfold try_body, bind, index, ret, raise.
  destruct (py_index event_lines 0) as [pde_line|]; cbv beta iota;
    [|auto].
  destruct (py_index event_lines 4) as [sdr_line|]; cbv beta iota;
    [|auto].
  pose proof (extract_pde_spec (split pde_line) st) as Hp.
  destruct (extract_pde (split pde_line) st)
    as [[[[[[ts la] lo] de] ma]|e] st1].
  2:{ destruct Hp as ((_ & Hc & Hn) & _). unfold counters in Hn.
      inversion Hn. auto. }
  destruct Hp as ((_ & Hc & Hn) & _). unfold counters in Hn.
  inversion Hn as [[Hw Hf Hs]].
  destruct (6 <=? List.length (split sdr_line))%nat; [|auto].
  pose proof (extract_sdr_spec (split sdr_line) st1) as Hsd.
  destruct (extract_sdr (split sdr_line) st1) as [[[[s d] r]|e] st2].
  2:{ destruct Hsd as ((_ & Hc2 & Hn2) & _). unfold counters in Hn2.
      inversion Hn2. split; [congruence | left; congruence]. }
  destruct Hsd as ((_ & Hc2 & Hn2) & _). unfold counters in Hn2.
  inversion Hn2 as [[Hw2 Hf2 Hs2]].
  destruct (feq s (float_of_Z 0) && feq d (float_of_Z 0)).
  { split; [congruence | left; congruence]. }
  rewrite emit_with_fm_run. cbv zeta.
  destruct (beachball_raises (the_call i s d r)) eqn:Eb; simpl.
  - split; [congruence|]. right. exists s, d, r.
    split; [congruence | exact Eb].
  - exists s, d, r. repeat split; congruence.
Qed.

Lemma rendered_app calls c :
  rendered (calls ++ [c])
  = rendered calls ++ (if beachball_raises c then [] else [c]).
Proof.
  unfold rendered. rewrite filter_app. simpl.
  destruct (beachball_raises c); reflexivity.
Qed.

Lemma rendered_step i event_lines st :
  wf_locals (vars st) ->
  events_processed_with_fm st
  = List.length (rendered (beachball_calls st)) ->
  events_processed_with_fm (process_event i event_lines st)
  = List.length (rendered (beachball_calls (process_event i event_lines st))).
Proof.
  intros Hwf Hinv. unfold process_event.
  destruct (List.length event_lines <? 5)%nat; [exact Hinv|].
  pose proof (try_body_calls i event_lines st) as Hc.
  pose proof (try_body_spec i event_lines st) as Hspec.
  destruct (try_body i event_lines st) as [[[]|e] st1].
  - destruct Hc as (s & d & r & Hcalls & Hok & Hw).
    rewrite Hcalls, rendered_app, Hok, length_app, Hw, Hinv. simpl. lia.
  - destruct Hc as (Hw & Hcalls).
    destruct Hspec as (_ & _ & Hwf1 & _).
    specialize (Hwf1 Hwf).
    assert (Hfb : events_processed_with_fm (snd (fallback st1))
                  = events_processed_with_fm st1
                  /\ events_processed_with_fm
                       (incr_skipped (snd (fallback st1)))
                     = events_processed_with_fm st1).
    { destruct Hwf1 as [Hnone|(ts & la & lo & de & ma & Hdis)].
      - rewrite fallback_unbound by exact Hnone. split; reflexivity.
      - rewrite (fallback_run st1 _ _ _ _ _ Hdis). split; reflexivity. }
    pose proof (fallback_calls st1 Hwf1) as Hfc.
    destruct (fallback st1) as [[[]|e'] st2]; simpl in *.
    + destruct Hfb as [Hfb _]. rewrite Hfb, Hfc, Hw, Hinv.
      destruct Hcalls as [Hcalls|(s & d & r & Hcalls & Hr)];
        rewrite Hcalls; [reflexivity|].
      rewrite rendered_app, Hr, app_nil_r. reflexivity.
    + destruct Hfb as [_ Hfb]. rewrite Hfb, Hfc, Hw, Hinv.
      destruct Hcalls as [Hcalls|(s & d & r & Hcalls & Hr)];
        rewrite Hcalls; [reflexivity|].
      rewrite rendered_app, Hr, app_nil_r. reflexivity.
Qed.

Lemma rendered_run events :
  forall i st,
    wf_locals (vars st) ->
    events_processed_with_fm st
    = List.length (rendered (beachball_calls st)) ->
    events_processed_with_fm (process_events i events st)
    = List.length (rendered (beachball_calls (process_events i events st))).
Proof.
  induction events as [|ev events IH]; intros i st Hwf Hinv; simpl.
  - exact Hinv.
  - apply IH.
    + destruct (process_event_spec i ev st Hwf) as (Hwf' & _). exact Hwf'.
    + apply rendered_step; assumption.
Qed.

(** X9: the number of events counted as processed with focal mechanism,
    which is the number of points in the fault-type folders, is the
    number of calls of the renderer that did not raise. *)
Theorem points_with_fm_match_rendered_diagrams
    (basename : str) (lines : list str) (save_raises : kml -> bool) :
  exists final,
    at_save (create_kml_from_custom_ndk basename (Some lines) false
               save_raises) = Some final
    /\ events_processed_with_fm final
       = List.length (rendered (beachball_calls final))
    /\ List.length (fm_points (doc final))
       = List.length (rendered (beachball_calls final)).
Proof.
  eexists. split; [apply at_save_run|].
  pose proof (rendered_run (group_lines lines) 0 (initial_state basename)
                (or_introl eq_refl) eq_refl) as Hr.
  destruct (reachable_inv basename (group_lines lines))
    as [_ Hw _ _ _ _ _].
  split; [exact Hr | congruence].
Qed.


(** ** Icons of the points with focal mechanism *)

Lemma fm_points_emission_perm e k :
  Permutation (fm_points (apply_emission e k))
    (match e with
     | InFaultFolder _ p => p :: fm_points k
     | _ => fm_points k
     end).
Proof.
  destruct e as [t p|p|]; try apply Permutation_refl.
  unfold fm_points.
  destruct k as [nm ds pn [na a] [nb b] [nc c] [nd d] wo].
  destruct t; simpl; symmetry.
  - rewrite <- app_assoc. simpl. apply Permutation_middle.
  - rewrite <- app_assoc. simpl.
    rewrite (app_assoc a b (c ++ d)), (app_assoc a b (p :: c ++ d)).
    apply Permutation_middle.
  - rewrite <- app_assoc. simpl.
    rewrite (app_assoc b c d), (app_assoc b c (p :: d)).
    rewrite (app_assoc a (b ++ c) d), (app_assoc a (b ++ c) (p :: d)).
    apply Permutation_middle.
  - rewrite !app_assoc. apply Permutation_cons_append.
Qed.

Lemma icons_inv_step n event_lines st :
  wf_locals (vars st) -> icons_inv n (doc st) ->
  icons_inv (S n) (doc (process_event n event_lines st)).
Proof.
  intros Hwf (Hall & Hnd).
  assert (Hall' : Forall (fun p => exists i, (i < S n)%nat
                            /\ pt_href p = Some (beachball_filename i))
                    (fm_points (doc st))).
  { eapply Forall_impl; [|exact Hall].
    intros p (i & Hi & Hp). exists i. split; [lia | exact Hp]. }
  destruct (process_event_spec n event_lines st Hwf)
    as (_ & _ & _ & e & Hout & Hdoc & _).
  pose proof (fm_points_emission_perm e (doc st)) as Hperm.
  rewrite <- Hdoc in Hperm.
  destruct Hout as [ts la lo de ma s d r _ _ _| | |];
    try (split; [eapply Permutation_Forall; [symmetry; exact Hperm|];
                 exact Hall'
                |eapply Permutation_NoDup;
                 [apply Permutation_map; symmetry; exact Hperm | exact Hnd]]).
  split.
  - eapply Permutation_Forall; [symmetry; exact Hperm|].
    constructor; [|exact Hall']. exists n. split; [lia | reflexivity].
  - eapply Permutation_NoDup;
      [apply Permutation_map; symmetry; exact Hperm|].
    simpl. constructor; [|exact Hnd].
    intros Hin. apply in_map_iff in Hin. destruct Hin as (p & Hp & Hpin).
    rewrite Forall_forall in Hall.
    destruct (Hall p Hpin) as (i & Hi & Hpi).
    rewrite Hpi in Hp.
    assert (Hf : beachball_filename n = beachball_filename i)
      by congruence.
    apply beachball_filename_inj in Hf. lia.
Qed.

Lemma icons_inv_run events :
  forall n st,
    wf_locals (vars st) -> icons_inv n (doc st) ->
    icons_inv (n + List.length events) (doc (process_events n events st)).
Proof.
  induction events as [|ev events IH]; intros n st Hwf Hinv; simpl.
  - rewrite Nat.add_0_r. exact Hinv.
  - replace (n + S (List.length events))%nat
      with (S n + List.length events)%nat by lia.
    apply IH.
    + destruct (process_event_spec n ev st Hwf) as (Hwf' & _). exact Hwf'.
    + apply icons_inv_step; assumption.
Qed.

(** X15: in the document handed to [kml.save], no two points with focal
    mechanism share an icon: each has the diagram file of its own
    event. *)
Theorem icons_of_fm_points_are_distinct
    (basename : str) (lines : list str) (save_raises : kml -> bool) :
  exists final,
    at_save (create_kml_from_custom_ndk basename (Some lines) false
               save_raises) = Some final
    /\ NoDup (map pt_href (fm_points (doc final)))
    /\ forall p,
         In p (fm_points (doc final)) ->
         exists i,
           (i < List.length (group_lines lines))%nat
           /\ pt_href p = Some (beachball_filename i).
Proof.
  eexists. split; [apply at_save_run|].
  destruct (icons_inv_run (group_lines lines) 0 (initial_state basename))
    as (Hall & Hnd).
  - left. reflexivity.
  - split; constructor.
  - split; [exact Hnd|]. intros p Hin.
    rewrite Forall_forall in Hall. apply (Hall p Hin).
Qed.

(** ** Order of the points in a folder *)

Lemma sorted_snoc (positions : list nat) (n : nat) :
  StronglySorted lt positions ->
  Forall (fun i => (i < n)%nat) positions ->
  StronglySorted lt (positions ++ [n]).
Proof.
  induction positions as [|i positions IH]; intros Hs Hlt; simpl.
  - constructor; constructor.
  - inversion Hs as [|i' l' Hs' Hi]; subst.
    inversion Hlt as [|i' l' Hin Hlt']; subst.
    constructor; [apply IH; assumption|].
    apply Forall_app. split; [exact Hi|].
    constructor; [exact Hin | constructor].
Qed.

Lemma in_file_order_step n event_lines st :
  wf_locals (vars st) -> in_file_order n (doc st) ->
  in_file_order (S n) (doc (process_event n event_lines st)).
Proof.
  intros Hwf Hinv t.
  destruct (Hinv t) as (positions & Hs & Hlt & Hmap).
  assert (Hlt' : Forall (fun i => (i < S n)%nat) positions).
  { eapply Forall_impl; [|exact Hlt]. intros i Hi. simpl in Hi. lia. }
  destruct (process_event_spec n event_lines st Hwf)
    as (_ & _ & _ & e & Hout & Hdoc & _).
  rewrite Hdoc, folder_map_emission.
  destruct Hout as [ts la lo de ma s d r _ _ _| | |];
    try (exists positions; rewrite app_nil_r; repeat split; assumption).
  destruct t, (fst (classify_and_color_by_rake r));
    try (exists positions; rewrite app_nil_r; repeat split; assumption);
    (exists (positions ++ [n]); split; [apply sorted_snoc; assumption|];
     split; [apply Forall_app; split; [exact Hlt'|];
             constructor; [lia | constructor]|];
     rewrite !map_app, Hmap; reflexivity).
Qed.

Lemma in_file_order_run events :
  forall n st,
    wf_locals (vars st) -> in_file_order n (doc st) ->
    in_file_order (n + List.length events)
      (doc (process_events n events st)).
Proof.
  induction events as [|ev events IH]; intros n st Hwf Hinv; simpl.
  - rewrite Nat.add_0_r. exact Hinv.
  - replace (n + S (List.length events))%nat
      with (S n + List.length events)%nat by lia.
    apply IH.
    + destruct (process_event_spec n ev st Hwf) as (Hwf' & _). exact Hwf'.
    + apply in_file_order_step; assumption.
Qed.

(** X16: in the document handed to [kml.save], the points of each
    fault-type folder stand in the order of their events in the input:
    their icons are the diagram files of events of strictly increasing
    position. *)
Theorem fault_folders_keep_file_order
    (basename : str) (lines : list str) (save_raises : kml -> bool)
    (t : fault_type) :
  exists final positions,
    at_save (create_kml_from_custom_ndk basename (Some lines) false
               save_raises) = Some final
    /\ StronglySorted lt positions
    /\ Forall (fun i => (i < List.length (group_lines lines))%nat) positions
    /\ map pt_href (folder_points (folder_map (doc final) t))
       = map (fun i =>
                Some (lit "assets/event_" ++ of_nat (i + 1)
                      ++ lit "_fm.png"))
           positions.
Proof.
  destruct (in_file_order_run (group_lines lines) 0
              (initial_state basename)) with (t := t)
    as (positions & Hs & Hlt & Hmap).
  - left. reflexivity.
  - intros t'. exists []. destruct t'; repeat split; constructor.
  - eexists. exists positions. split; [apply at_save_run|].
    repeat split; assumption.
Qed.

(** ** The script *)

(** X17: the script writes a document exactly when the data file exists
    and can be read, the folder of the images can be made and [kml.save]
    does not raise on the document built, and always to
    [focal_mechanisms.kml]; whatever the file holds, the document is named
    after the data file and has the legend, the parent folder and the five
    folders of the empty document. *)
Theorem main_writes_the_fixed_frame
    (file_exists : bool) (readlines : option (list str))
    (makedirs_raises : bool) (save_raises : kml -> bool) :
  ((exists out st,
       main_output (main file_exists readlines makedirs_raises save_raises)
       = Some (out, st))
     <-> file_exists = true /\ makedirs_raises = false
         /\ exists lines,
              readlines = Some lines
              /\ save_raises
                   (doc (process_events 0 (group_lines lines)
                           (initial_state data_file_to_process)))
                 = false)
  /\ forall out st,
       main_output (main file_exists readlines makedirs_raises save_raises)
       = Some (out, st) ->
       out = lit "focal_mechanisms.kml"
       /\ kml_name (doc st)
          = lit "Focal Mechanisms from SPUD_NDK_bundle_2025-06-06T16.47.05.txt"
       /\ kml_description (doc st) = document_description
       /\ fm_parent_name (doc st) = lit "Events with Focal Mechanisms"
       /\ map folder_name (folders (doc st))
          = [ lit "Normal"; lit "Thrust (Reverse)"; lit "Strike-Slip";
              lit "Oblique"; lit "Events without Focal Mechanisms" ].
Proof.
  unfold main, main_output, create_kml_from_custom_ndk. split.
  - split.
    + intros (out & st & H).
      destruct file_exists; [|discriminate].
      destruct readlines as [lines|]; [|discriminate].
      destruct makedirs_raises; [discriminate|].
      cbv beta iota zeta in H.
      destruct (save_raises _) eqn:Es; [discriminate|].
      repeat split. exists lines. split; [reflexivity | exact Es].
    + intros (Hf & Hm & lines & Hr & Hs). subst.
      cbv beta iota zeta. rewrite Hs. eexists _, _. reflexivity.
  - intros out st H.
    destruct file_exists; [|discriminate].
    destruct readlines as [lines|]; [|discriminate].
    destruct makedirs_raises; [discriminate|].
    cbv beta iota zeta in H.
    destruct (save_raises _); [discriminate|].
    inversion H; subst. clear H.
    destruct (extends_run (group_lines lines) 0
                (initial_state data_file_to_process))
      as [Hframe _]; [left; reflexivity|].
    unfold frame_of in Hframe. inversion Hframe as [[Hn Hd Hp Hf]].
    repeat split; try assumption; try reflexivity;
      try (rewrite Hf; reflexivity).
Qed.

(** ** What the count checks guard *)






(** ** The diagrams and the events they belong to *)

Lemma complete_event_call i event_lines st ts la lo de ma s d r :
  (5 <= List.length event_lines)%nat ->
  pde_of event_lines ts la lo de ma ->
  sdr_of event_lines s d r ->
  feq s (float_of_Z 0) && feq d (float_of_Z 0) = false ->
  beachball_calls (process_event i event_lines st)
  = beachball_calls st ++ [the_call i s d r].
Proof.
  intros Hlen Hpde Hsdr Hnz.
  destruct (try_body_complete i event_lines st _ _ _ _ _ _ _ _ Hpde Hsdr)
    as (loc & Htry).
  unfold process_event.
  assert (E5 : (List.length event_lines <? 5)%nat = false)
    by (apply Nat.ltb_ge; exact Hlen).
  rewrite E5, Htry, Hnz, emit_with_fm_run. cbv zeta.
  destruct (beachball_raises (the_call i s d r)); [|reflexivity].
  erewrite fallback_run by reflexivity. reflexivity.
Qed.

Lemma try_body_call_of_event i event_lines st :
  beachball_calls (snd (try_body i event_lines st)) = beachball_calls st
  \/ exists s d r,
       sdr_of event_lines s d r
       /\ beachball_calls (snd (try_body i event_lines st))
          = beachball_calls st ++ [the_call i s d r].
Proof.
  unfold try_body, bind, index, ret, raise.
  destruct (py_index event_lines 0) as [pde_line|]; cbv beta iota;
    [|auto].
  destruct (py_index event_lines 4) as [sdr_line|] eqn:E4; cbv beta iota;
    [|auto].
  pose proof (extract_pde_spec (split pde_line) st) as Hp.
  destruct (extract_pde (split pde_line) st)
    as [[[[[[ts la] lo] de] ma]|e] st1].
  2:{ destruct Hp as ((_ & Hc & _) & _). left. exact Hc. }
  destruct Hp as ((_ & Hc & _) & _).
  destruct (6 <=? List.length (split sdr_line))%nat; [|left; exact Hc].
  pose proof (extract_sdr_spec (split sdr_line) st1) as Hsd.
  destruct (extract_sdr (split sdr_line) st1) as [[[[s d] r]|e] st2].
  2:{ destruct Hsd as ((_ & Hc2 & _) & _). left. simpl. congruence. }
  destruct Hsd as ((_ & Hc2 & _) & _ & _ & _ & _
                   & s6 & s5 & s4 & I6 & I5 & I4 & F6 & F5 & F4).
  destruct (feq s (float_of_Z 0) && feq d (float_of_Z 0)).
  { left. simpl. congruence. }
  right. exists s, d, r. split.
  { exists sdr_line, s6, s5, s4. auto 10. }
  rewrite emit_with_fm_run. cbv zeta.
  destruct (beachball_raises (the_call i s d r)); simpl; congruence.
Qed.

Lemma process_event_call_of_event i event_lines st :
  wf_locals (vars st) ->
  beachball_calls (process_event i event_lines st) = beachball_calls st
  \/ exists s d r,
       sdr_of event_lines s d r
       /\ beachball_calls (process_event i event_lines st)
          = beachball_calls st ++ [the_call i s d r].
Proof.
  intros Hwf. unfold process_event.
  destruct (List.length event_lines <? 5)%nat; [left; reflexivity|].
  pose proof (try_body_call_of_event i event_lines st) as Hc.
  pose proof (try_body_spec i event_lines st) as Hspec.
  destruct (try_body i event_lines st) as [[[]|e] st1]; [exact Hc|].
  destruct Hspec as (_ & _ & Hwf1 & _).
  pose proof (fallback_calls st1 (Hwf1 Hwf)) as Hfb.
  destruct (fallback st1) as [[[]|e2] st2]; simpl in Hfb, Hc |- *;
    rewrite Hfb; exact Hc.
Qed.

Lemma calls_of_events events :
  forall n st c,
    wf_locals (vars st) ->
    In c (beachball_calls (process_events n events st)) ->
    In c (beachball_calls st)
    \/ exists j event_lines s d r,
         nth_error events j = Some event_lines
         /\ sdr_of event_lines s d r
         /\ c = the_call (n + j) s d r.
Proof.
  induction events as [|ev events IH]; intros n st c Hwf Hin; simpl in Hin.
  - left. exact Hin.
  - assert (Hwf' : wf_locals (vars (process_event n ev st))).
    { destruct (process_event_spec n ev st Hwf) as (Hwf' & _). exact Hwf'. }
    destruct (IH (S n) (process_event n ev st) c Hwf' Hin)
      as [Hc|(j & el & s & d & r & Hj & Hsdr & Hc)].
    + destruct (process_event_call_of_event n ev st Hwf)
        as [He|(s & d & r & Hsdr & He)]; rewrite He in Hc.
      * left. exact Hc.
      * apply in_app_or in Hc. destruct Hc as [Hc|[Hc|[]]].
        { left. exact Hc. }
        right. exists 0%nat, ev, s, d, r.
        rewrite Nat.add_0_r. auto.
    + right. exists (S j), el, s, d, r. simpl.
      rewrite Nat.add_succ_r. auto.
Qed.

(** C9: the class of a rake comes with the color green for Normal, red
    for Thrust, blue for Strike-Slip and yellow for Oblique, on the whole
    of each range. An event whose first line yields the display fields
    and whose fifth line yields strike, dip and rake not both zero has
    one diagram requested, with its own strike, dip and rake and in the
    color of the class of its own rake: green in the Normal range, red in
    the Thrust range, blue in the Strike-Slip range and yellow elsewhere.
    Every diagram requested in a run is that of an event of the run, with
    the strike, dip and rake of that event's fifth line and in the color
    of its rake's class. The legend of the document shows red for Normal,
    blue for Thrust and green for Strike-Slip. *)
Theorem classifier_colors_differ_from_legend :
  (forall rake,
      (in_range (-120) (-60) rake = true ->
         classify_and_color_by_rake rake = (Normal, green))
      /\ (in_range 60 120 rake = true ->
         classify_and_color_by_rake rake = (Thrust, red))
      /\ (strike_slip_range rake = true ->
         classify_and_color_by_rake rake = (StrikeSlip, blue))
      /\ (in_range (-120) (-60) rake = false ->
          in_range 60 120 rake = false ->
          strike_slip_range rake = false ->
          classify_and_color_by_rake rake = (Oblique, yellow)))
  /\ (forall i event_lines st ts la lo de ma s d r,
        (5 <= List.length event_lines)%nat ->
        pde_of event_lines ts la lo de ma ->
        sdr_of event_lines s d r ->
        feq s (float_of_Z 0) && feq d (float_of_Z 0) = false ->
        exists c,
          beachball_calls (process_event i event_lines st)
          = beachball_calls st ++ [c]
          /\ call_mechanism c = (s, d, r)
          /\ call_outfile c = beachball_filename i
          /\ call_facecolor c = snd (classify_and_color_by_rake r)
          /\ (in_range (-120) (-60) r = true -> call_facecolor c = green)
          /\ (in_range 60 120 r = true -> call_facecolor c = red)
          /\ (strike_slip_range r = true -> call_facecolor c = blue)
          /\ (in_range (-120) (-60) r = false ->
              in_range 60 120 r = false ->
              strike_slip_range r = false ->
              call_facecolor c = yellow))
  /\ (forall basename events c,
        In c (beachball_calls
                (process_events 0 events (initial_state basename))) ->
        call_facecolor c
        = snd (classify_and_color_by_rake (call_rake c))
        /\ exists j event_lines s d r,
             nth_error events j = Some event_lines
             /\ sdr_of event_lines s d r
             /\ call_mechanism c = (s, d, r)
             /\ call_outfile c = beachball_filename j
             /\ call_facecolor c = snd (classify_and_color_by_rake r))
  /\ (forall basename events,
        kml_description
          (doc (process_events 0 events (initial_state basename)))
        = document_description)
  /\ legend_color Normal = Some red
  /\ legend_color Thrust = Some blue
  /\ legend_color StrikeSlip = Some green
  /\ legend_color Oblique = Some yellow.
Proof.
  assert (Hclass : forall rake,
      (in_range (-120) (-60) rake = true ->
         classify_and_color_by_rake rake = (Normal, green))
      /\ (in_range 60 120 rake = true ->
         classify_and_color_by_rake rake = (Thrust, red))
      /\ (strike_slip_range rake = true ->
         classify_and_color_by_rake rake = (StrikeSlip, blue))
      /\ (in_range (-120) (-60) rake = false ->
          in_range 60 120 rake = false ->
          strike_slip_range rake = false ->
          classify_and_color_by_rake rake = (Oblique, yellow))).
  { intros rake. rewrite classify_unfold.
    pose proof (normal_not_thrust rake) as NT.
    pose proof (strike_slip_not_normal rake) as SN.
    pose proof (strike_slip_not_thrust rake) as ST.
    destruct (in_range (-120) (-60) rake), (in_range 60 120 rake),
      (strike_slip_range rake); repeat split; intros;
      try reflexivity; try discriminate;
      try (specialize (NT eq_refl)); try (specialize (SN eq_refl));
      try (specialize (ST eq_refl)); discriminate. }
  split; [exact Hclass|]. split; [|split; [|split; [|repeat split]]].
  - intros i event_lines st ts la lo de ma s d r Hlen Hpde Hsdr Hnz.
    exists (the_call i s d r).
    split; [eapply complete_event_call; eassumption|].
    destruct (Hclass r) as (Hn & Ht & Hs & Ho).
    unfold the_call. simpl.
    repeat split; intros.
    + rewrite Hn by assumption. reflexivity.
    + rewrite Ht by assumption. reflexivity.
    + rewrite Hs by assumption. reflexivity.
    + rewrite Ho by assumption. reflexivity.
  - intros basename events c Hc. split.
    + destruct (reachable_inv basename events) as [_ _ _ _ _ Hcol _].
      rewrite Forall_forall in Hcol. apply Hcol. exact Hc.
    + destruct (calls_of_events events 0 (initial_state basename) c)
        as [[]|(j & el & s & d & r & Hj & Hsdr & Hcall)].
      * left. reflexivity.
      * exact Hc.
      * exists j, el, s, d, r. subst c. simpl. auto.
  - intros basename events.
    destruct (reachable_inv basename events) as [_ _ _ _ _ _ Hleg].
    exact Hleg.
Qed.


End More.

(** * Further properties of the record grouper *)

Lemma group_lines_chunked (lines : list str) :
  chunked (clean_lines lines) (group_lines lines).
Proof.
  pose proof (fold_group_step_grouping lines [] [] [] grouping_start) as H.
  unfold group_lines, chunked. simpl in H.
  destruct (fold_left group_step lines ([], [])) as [events cur].
  destruct H as [Hc Hn Hi Hh]. simpl in *.
  destruct cur as [|c cur]; simpl.
  - rewrite app_nil_r in Hc. apply Forall_app in Hi. destruct Hi as [Hi _].
    repeat split; try assumption.
    destruct events as [|e es]; simpl in *; [constructor|].
    apply Forall_app in Hh. destruct Hh as [Hh _]. exact Hh.
  - repeat split; try assumption.
    + rewrite concat_app. simpl. rewrite app_nil_r. exact Hc.
    + apply Forall_app. split; [exact Hn|].
      constructor; [congruence | constructor].
Qed.

Lemma sentinel_free_split (a a' b b' : list str) :
  a ++ b = a' ++ b' ->
  Forall (fun l => is_sentinel l = false) a ->
  Forall (fun l => is_sentinel l = false) a' ->
  (b = [] \/ starts_with_sentinel b) ->
  (b' = [] \/ starts_with_sentinel b') ->
  a = a' /\ b = b'.
Proof.
  revert a'. induction a as [|x a IH]; intros [|y a'] H Ha Ha' Hb Hb';
    simpl in H.
  - split; [reflexivity | exact H].
  - exfalso. subst b. inversion Ha' as [|? ? Hy _]; subst.
    destruct Hb as [Hb|Hb]; [discriminate|]. simpl in Hb. congruence.
  - exfalso. subst b'. inversion Ha as [|? ? Hx _]; subst.
    destruct Hb' as [Hb'|Hb']; [discriminate|]. simpl in Hb'. congruence.
  - inversion H as [[Hxy Hrest]]. subst y.
    inversion Ha; inversion Ha'; subst.
    destruct (IH a' Hrest) as [E1 E2]; auto. subst. split; reflexivity.
Qed.

Lemma led_concat (cs : list (list str)) :
  Forall starts_with_sentinel cs ->
  concat cs = [] \/ starts_with_sentinel (concat cs).
Proof.
  intros H. destruct cs as [|c cs]; [left; reflexivity|].
  right. inversion H as [|? ? Hc _]; subst.
  destruct c as [|x c]; [contradiction|]. exact Hc.
Qed.

Lemma led_unique (cs : list (list str)) :
  forall ds,
    Forall starts_with_sentinel cs -> Forall starts_with_sentinel ds ->
    Forall no_sentinel_inside cs -> Forall no_sentinel_inside ds ->
    concat cs = concat ds -> cs = ds.
Proof.
  induction cs as [|c cs IH]; intros ds Hc Hd Ic Id Heq.
  - destruct ds as [|d ds]; [reflexivity|].
    inversion Hd as [|? ? Hd1 _]; subst.
    destruct d; [contradiction | discriminate].
  - inversion Hc as [|? ? Hc1 Hcs]; subst.
    inversion Ic as [|? ? Ic1 Ics]; subst.
    destruct c as [|x c]; [contradiction|].
    destruct ds as [|d ds]; [discriminate|].
    inversion Hd as [|? ? Hd1 Hds]; subst.
    inversion Id as [|? ? Id1 Ids]; subst.
    destruct d as [|y d]; [contradiction|].
    simpl in Heq. inversion Heq as [[Hxy Hrest]]. subst y.
    destruct (sentinel_free_split c d (concat cs) (concat ds) Hrest)
      as [E1 E2]; auto using led_concat.
    subst d. f_equal. apply IH; assumption.
Qed.

Lemma chunked_unique (ls : list str) (cs ds : list (list str)) :
  chunked ls cs -> chunked ls ds -> cs = ds.
Proof.
  intros (Cc & Nc & Ic & Hc) (Cd & Nd & Id & Hd).
  rewrite <- Cc in Cd. clear Cc.
  destruct cs as [|c cs], ds as [|d ds]; [reflexivity| | |].
  - exfalso. inversion Nd as [|? ? Hne _].
    simpl in Cd. destruct d; [congruence | discriminate].
  - exfalso. inversion Nc as [|? ? Hne _].
    simpl in Cd. destruct c; [congruence | discriminate].
  - inversion Nc as [|? ? Hc1 _]. inversion Nd as [|? ? Hd1 _].
    inversion Ic as [|? ? Ic1 Ics]. inversion Id as [|? ? Id1 Ids].
    destruct c as [|hc c]; [congruence|].
    destruct d as [|hd d]; [congruence|].
    simpl in Cd, Hc, Hd. inversion Cd as [[Hxy Hrest]].
    symmetry in Hrest.
    destruct (sentinel_free_split c d (concat cs) (concat ds) Hrest)
      as [E1 E2]; auto using led_concat.
    rewrite E1. f_equal. apply led_unique; assumption.
Qed.

Lemma lstrip_head (s : str) (c : char) (r : str) :
  lstrip s = c :: r -> isspace c = false.
Proof.
  induction s as [|a s IH]; simpl; [discriminate|].
  destruct (isspace a) eqn:Ea; [exact IH|].
  intros H. inversion H; subst. exact Ea.
Qed.

Lemma lstrip_suffix (s : str) : exists p, s = p ++ lstrip s.
Proof.
  induction s as [|a s [p IH]]; simpl; [exists []; reflexivity|].
  destruct (isspace a).
  - exists (a :: p). simpl. f_equal. exact IH.
  - exists []. reflexivity.
Qed.

Lemma strip_idempotent (s : str) : strip (strip s) = strip s.
Proof.
  unfold strip.
  destruct (lstrip (rev (lstrip s))) as [|c u] eqn:Eu; [reflexivity|].
  pose proof (lstrip_head _ _ _ Eu) as Hc.
  destruct (lstrip_suffix (rev (lstrip s))) as [p Hp].
  rewrite Eu in Hp.
  assert (Hr : lstrip s = rev (c :: u) ++ rev p).
  { rewrite <- rev_app_distr, <- Hp, rev_involutive. reflexivity. }
  destruct (rev (c :: u)) as [|h t] eqn:Et.
  { apply (f_equal (@rev char)) in Et. rewrite rev_involutive in Et.
    discriminate. }
  simpl in Hr. pose proof (lstrip_head _ _ _ Hr) as Hh.
  simpl. rewrite Hh.
  assert (Hrev : rev (h :: t) = c :: u).
  { rewrite <- Et. apply rev_involutive. }
  rewrite Hrev. simpl. rewrite Hc. rewrite <- Hrev.
  apply rev_involutive.
Qed.

Lemma clean_lines_clean (lines : list str) :
  clean_lines (clean_lines lines) = clean_lines lines.
Proof.
  unfold clean_lines.
  induction lines as [|l lines IH]; simpl; [reflexivity|].
  destruct (nonempty (strip l)) eqn:E; simpl; [|exact IH].
  rewrite strip_idempotent, E, IH. reflexivity.
Qed.

Lemma clean_lines_app (l1 l2 : list str) :
  clean_lines (l1 ++ l2) = clean_lines l1 ++ clean_lines l2.
Proof. unfold clean_lines. rewrite map_app, filter_app. reflexivity. Qed.

Lemma chunk_sentinels (c : list str) :
  starts_with_sentinel c -> no_sentinel_inside c -> sentinel_count c = 1%nat.
Proof.
  destruct c as [|x c]; [contradiction|]. unfold sentinel_count.
  simpl. intros Hx Hc. rewrite Hx. simpl. f_equal.
  unfold no_sentinel_inside in Hc. simpl in Hc.
  induction Hc as [|y c Hy _ IH]; simpl; [reflexivity|].
  rewrite Hy. exact IH.
Qed.

Lemma sentinel_count_app (a b : list str) :
  sentinel_count (a ++ b) = (sentinel_count a + sentinel_count b)%nat.
Proof. unfold sentinel_count. rewrite filter_app, length_app. reflexivity. Qed.

Lemma led_count (cs : list (list str)) :
  Forall starts_with_sentinel cs -> Forall no_sentinel_inside cs ->
  sentinel_count (concat cs) = List.length cs.
Proof.
  induction cs as [|c cs IH]; intros Hs Hi; [reflexivity|].
  inversion Hs; inversion Hi; subst. simpl.
  rewrite sentinel_count_app, chunk_sentinels, IH; auto.
Qed.

(** X10: cutting at the sentinels leaves no choice: any list of chunks
    that holds the stripped non-empty lines in order, without empty
    chunk, with no sentinel inside a chunk and one at the head of every
    chunk but the first, is the list the grouper returns. *)
Theorem group_lines_is_the_only_chunking
    (lines : list str) (chunks : list (list str)) :
  chunked (clean_lines lines) chunks -> chunks = group_lines lines.
Proof.
  intros H. eapply chunked_unique; [exact H|].
  apply group_lines_chunked.
Qed.

(** X11: the number of events found is the number of stripped lines that
    begin with a sentinel, plus one when the first non-blank line does
    not. *)
Theorem number_of_events (lines : list str) :
  List.length (group_lines lines)
  = (sentinel_count (clean_lines lines)
     + leading_block (clean_lines lines))%nat.
Proof.
  destruct (group_lines_chunked lines) as (Hc & Hn & Hi & Hh).
  rewrite <- Hc.
  destruct (group_lines lines) as [|c cs]; [reflexivity|].
  inversion Hn as [|? ? Hc1 _]. inversion Hi as [|? ? Hi1 His]. subst.
  simpl in Hh. simpl concat.
  rewrite sentinel_count_app, (led_count cs Hh His).
  destruct c as [|x c]; [congruence|]. simpl.
  unfold sentinel_count. simpl.
  unfold no_sentinel_inside in Hi1. simpl in Hi1.
  assert (Hin : List.length (filter is_sentinel c) = 0%nat).
  { clear -Hi1. induction Hi1 as [|y c Hy _ IH]; simpl; [reflexivity|].
    rewrite Hy. exact IH. }
  destruct (is_sentinel x); simpl; rewrite Hin; lia.
Qed.

(** X12: the events depend on the stripped non-empty lines only: blank
    lines and the whitespace around a line change nothing, there is no
    event exactly when every line is blank, and regrouping the lines of
    the events, in order, gives the same events. *)
Theorem grouping_reads_clean_lines_only (lines : list str) :
  (forall lines', clean_lines lines' = clean_lines lines ->
                  group_lines lines' = group_lines lines)
  /\ (group_lines lines = [] <-> clean_lines lines = [])
  /\ group_lines (concat (group_lines lines)) = group_lines lines.
Proof.
  assert (Hdep : forall l1 l2, clean_lines l1 = clean_lines l2 ->
                               group_lines l1 = group_lines l2).
  { intros l1 l2 H. apply (chunked_unique (clean_lines l2)).
    - rewrite <- H. apply group_lines_chunked.
    - apply group_lines_chunked. }
  destruct (group_lines_chunked lines) as (Hc & Hn & _ & _).
  split; [intros lines' H; apply Hdep; exact H|]. split.
  - split; intros H.
    + rewrite <- Hc, H. reflexivity.
    + destruct (group_lines lines) as [|c cs]; [reflexivity|].
      inversion Hn as [|? ? Hc1 _]. subst. simpl in Hc. rewrite H in Hc.
      destruct c; [congruence | discriminate].
  - apply Hdep. rewrite Hc. apply clean_lines_clean.
Qed.

(** X13: reading one file after another: when the second begins, blank
    lines apart, with a sentinel line, the events of the two files read
    as one are the events of the first followed by those of the
    second. *)
Theorem grouping_of_appended_files (lines1 lines2 : list str) :
  leading_block (clean_lines lines2) = 0%nat ->
  group_lines (lines1 ++ lines2) = group_lines lines1 ++ group_lines lines2.
Proof.
  intros Hlead. symmetry.
  apply (chunked_unique (clean_lines (lines1 ++ lines2)));
    [|apply group_lines_chunked].
  destruct (group_lines_chunked lines1) as (C1 & N1 & I1 & H1).
  destruct (group_lines_chunked lines2) as (C2 & N2 & I2 & H2).
  assert (Hall2 : Forall starts_with_sentinel (group_lines lines2)).
  { destruct (group_lines lines2) as [|c cs]; [constructor|].
    constructor; [|exact H2].
    inversion N2 as [|? ? Hc _]. subst.
    destruct c as [|x c]; [congruence|].
    simpl in C2. rewrite <- C2 in Hlead. simpl in Hlead. simpl.
    destruct (is_sentinel x); [reflexivity | discriminate]. }
  repeat split.
  - rewrite concat_app, C1, C2, clean_lines_app. reflexivity.
  - apply Forall_app. split; assumption.
  - apply Forall_app. split; assumption.
  - destruct (group_lines lines1) as [|c cs]; simpl; [exact H2|].
    apply Forall_app. split; [exact H1 | exact Hall2].
Qed.

(** * The classifier under a change of sign *)

Lemma in_range_fneg (lo hi lo' hi' : Z) (x : pyfloat) :
  float_of_Z lo = fneg (float_of_Z hi') ->
  float_of_Z hi = fneg (float_of_Z lo') ->
  in_range lo hi (fneg x) = in_range lo' hi' x.
Proof.
  intros Hlo Hhi. unfold in_range.
  rewrite Hlo, Hhi, !fle_opp. apply andb_comm.
Qed.

Lemma SFabs_fneg (x : pyfloat) : SFabs (fneg x) = SFabs x.
Proof. destruct x; reflexivity. Qed.

(** X14: the classes are symmetric in the sign of the rake: changing the
    sign turns Normal into Thrust and Thrust into Normal, and leaves
    Strike-Slip and Oblique as they are. *)
Theorem classify_mirror (rake : pyfloat) :
  fst (classify_and_color_by_rake (fneg rake))
  = mirror (fst (classify_and_color_by_rake rake)).
Proof.
  rewrite !classify_unfold. unfold strike_slip_range.
  rewrite SFabs_fneg.
  rewrite (in_range_fneg (-120) (-60) 60 120) by reflexivity.
  rewrite (in_range_fneg 60 120 (-120) (-60)) by reflexivity.
  rewrite (in_range_fneg (-30) 30 (-30) 30) by reflexivity.
  pose proof (normal_not_thrust rake) as NT.
  destruct (in_range (-120) (-60) rake), (in_range 60 120 rake),
    (in_range (-30) 30 rake || fle (float_of_Z 150) (SFabs rake));
    try reflexivity; specialize (NT eq_refl); discriminate.
Qed.

(** ** The further properties on the sample data *)

Section MoreRuns.

Import Sample MoreSamples.

#[local] Existing Instance externals.

Lemma complete_event_witness :
  (5 <= List.length thrust_event)%nat
  /\ pde_of thrust_event sample_time (float_lit "10.5")
       (float_lit "-20.25") (float_lit "33.0") (float_lit "6.0")
  /\ sdr_of thrust_event (float_lit "200") (float_lit "45")
       (float_lit "90")
  /\ fst (classify_and_color_by_rake (float_lit "90")) = Thrust
  /\ folder_points (fm_thrust (doc (process_event 0 thrust_event start)))
     = [ fm_point 0 Thrust sample_time (float_lit "10.5")
           (float_lit "-20.25") (float_lit "33.0") (float_lit "6.0")
           (float_lit "200") (float_lit "45") (float_lit "90") ]
  /\ beachball_calls (process_event 0 thrust_event start)
     = [ the_call 0 (float_lit "200") (float_lit "45") (float_lit "90") ].
Proof.
  assert (Hlen : (5 <= List.length thrust_event)%nat) by (simpl; lia).
  assert (Hpde : pde_of thrust_event sample_time (float_lit "10.5")
                   (float_lit "-20.25") (float_lit "33.0")
                   (float_lit "6.0")).
  { unfold pde_of. repeat eexists; reflexivity. }
  assert (Hsdr : sdr_of thrust_event (float_lit "200") (float_lit "45")
                   (float_lit "90")).
  { unfold sdr_of. repeat eexists; reflexivity. }
  assert (Hcls : fst (classify_and_color_by_rake (float_lit "90")) = Thrust)
    by reflexivity.
  destruct (complete_event_gets_fault_folder_point 0 thrust_event start
              sample_time (float_lit "10.5") (float_lit "-20.25")
              (float_lit "33.0") (float_lit "6.0") (float_lit "200")
              (float_lit "45") (float_lit "90") Hlen Hpde Hsdr
              eq_refl eq_refl) as ((Hdoc & _) & Hcalls).
  refine (conj Hlen (conj Hpde (conj Hsdr (conj Hcls (conj _ Hcalls))))).
  rewrite Hdoc, Hcls. reflexivity.
Defined.

Lemma unusable_first_lines_witness :
  Forall unusable (group_lines (file_of truncated_event))
  /\ exists final,
       at_save (run (file_of truncated_event)) = Some final
       /\ doc final = initial_kml basename
       /\ beachball_calls final = []
       /\ counters final = (0, 0, 1)%nat.
Proof.
  assert (Hg : group_lines (file_of truncated_event) = [truncated_event])
    by (vm_compute; reflexivity).
  assert (Hall : Forall unusable (group_lines (file_of truncated_event))).
  { rewrite Hg. constructor; [|constructor].
    right. intros ts la lo de ma
      (pde_line & p1 & p2 & p3 & p4 & p5 & p7 & H0 & _ & H2 & _).
    vm_compute in H0. inversion H0 as [Hl].
    rewrite <- Hl in H2. vm_compute in H2. discriminate. }
  split; [exact Hall|].
  destruct (nothing_emitted_without_usable_first_lines basename
              (file_of truncated_event) saves Hall)
    as (final & Hrun & Hdoc & Hcalls & Hcount).
  exists final. rewrite Hg in Hcount.
  exact (conj Hrun (conj Hdoc (conj Hcalls Hcount))).
Defined.

Lemma later_events_witness :
  (5 <= List.length thrust_event)%nat
  /\ pde_of thrust_event sample_time (float_lit "10.5")
       (float_lit "-20.25") (float_lit "33.0") (float_lit "6.0")
  /\ events_skipped
       (process_events 0
          [thrust_event; later_bad_latitude_event; short_event] start)
     = 1%nat
  /\ List.length
       (all_points
          (doc (process_events 0
                  [thrust_event; later_bad_latitude_event; short_event]
                  start)))
     = 2%nat.
Proof.
  assert (Hlen : (5 <= List.length thrust_event)%nat) by (simpl; lia).
  assert (Hpde : pde_of thrust_event sample_time (float_lit "10.5")
                   (float_lit "-20.25") (float_lit "33.0")
                   (float_lit "6.0")).
  { unfold pde_of. repeat eexists; reflexivity. }
  destruct (only_short_events_skipped_after_a_usable_one basename []
              thrust_event [later_bad_latitude_event; short_event]
              sample_time (float_lit "10.5") (float_lit "-20.25")
              (float_lit "33.0") (float_lit "6.0") Hlen Hpde)
    as (Hskip & Hpts).
  refine (conj Hlen (conj Hpde (conj _ _))).
  - etransitivity; [exact Hskip|]. vm_compute. reflexivity.
  - etransitivity; [exact Hpts|]. vm_compute. reflexivity.
Defined.

Lemma bad_latitude_witness :
  (5 <= List.length later_bad_latitude_event)%nat
  /\ float_of_str (lit "abc") = None
  /\ display (vars (process_event 0 thrust_event start))
     = (Some sample_time, Some (float_lit "10.5"),
        Some (float_lit "-20.25"), Some (float_lit "33.0"),
        Some (float_lit "6.0"))
  /\ emitted
       (InFallback
          (no_fm_point (lit "2021/03/04 05:06:07.8") (float_lit "10.5")
             (float_lit "-20.25") (float_lit "33.0") (float_lit "6.0")))
       (process_event 0 thrust_event start)
       (process_event 1 later_bad_latitude_event
          (process_event 0 thrust_event start)).
Proof.
  assert (Hlen : (5 <= List.length later_bad_latitude_event)%nat)
    by (simpl; lia).
  assert (Hbad : float_of_str (lit "abc") = None) by reflexivity.
  assert (Hdis : display (vars (process_event 0 thrust_event start))
                 = (Some sample_time, Some (float_lit "10.5"),
                    Some (float_lit "-20.25"), Some (float_lit "33.0"),
                    Some (float_lit "6.0")))
    by (vm_compute; reflexivity).
  destruct (bad_latitude_reuses_earlier_values 1 later_bad_latitude_event
              (process_event 0 thrust_event start)
              (lit "PDEQ 2021/03/04 05:06:07.8 abc 99.5 700.0 5.5 9.0 FAR AWAY")
              (lit "2021/03/04") (lit "05:06:07.8") (lit "abc")
              sample_time (float_lit "10.5") (float_lit "-20.25")
              (float_lit "33.0") (float_lit "6.0")
              Hlen eq_refl eq_refl eq_refl eq_refl Hbad Hdis)
    as (Hem & _).
  exact (conj Hlen (conj Hbad (conj Hdis Hem))).
Defined.

Lemma only_chunking_witness :
  chunked (clean_lines titled_file)
    [ [lit "CATALOG EXPORT"]; [lit "PDEQ 2020/01/02 03:04:05.6"] ]
  /\ group_lines titled_file
     = [ [lit "CATALOG EXPORT"]; [lit "PDEQ 2020/01/02 03:04:05.6"] ].
Proof.
  assert (H : chunked (clean_lines titled_file)
                [ [lit "CATALOG EXPORT"];
                  [lit "PDEQ 2020/01/02 03:04:05.6"] ]).
  { split; [vm_compute; reflexivity|].
    split; [repeat constructor; discriminate|].
    split; repeat constructor. }
  split; [exact H|].
  symmetry. apply (group_lines_is_the_only_chunking titled_file _ H).
Defined.

Lemma appended_files_witness :
  leading_block (clean_lines (file_of thrust_event)) = 0%nat
  /\ group_lines (titled_file ++ file_of thrust_event)
     = group_lines titled_file ++ group_lines (file_of thrust_event).
Proof.
  assert (H : leading_block (clean_lines (file_of thrust_event)) = 0%nat)
    by (vm_compute; reflexivity).
  split; [exact H|].
  apply (grouping_of_appended_files titled_file (file_of thrust_event) H).
Defined.



(** C7, as stated, fails on an event without focal mechanism whose date
    holds the control character U+0001: the exception is caught and the
    event gets its point in the fallback folder, but a writer that
    refuses what XML does not allow raises on that document, and none is
    written. The same writer accepts the document of the event without
    the character. *)
Lemma caught_exception_but_no_document :
  fst (try_body 0 control_char_event start)
  = Raise ValueError_no_focal_mechanism
  /\ (exists p,
        no_fm_points (doc (process_event 0 control_char_event start))
        = [p])
  /\ strict_save (doc (process_event 0 control_char_event start)) = true
  /\ strict_save (doc (process_event 0 no_mechanism_event start)) = false
  /\ (exists final,
        create_kml_from_custom_ndk basename
          (Some (file_of control_char_event)) false strict_save
        = SaveRaised final)
  /\ written
       (create_kml_from_custom_ndk basename
          (Some (file_of control_char_event)) false strict_save)
     = None.
Proof.
  split; [vm_compute; reflexivity|].
  split; [eexists; vm_compute; reflexivity|].
  split; [vm_compute; reflexivity|].
  split; [vm_compute; reflexivity|].
  split; [eexists; vm_compute; reflexivity|].
  vm_compute. reflexivity.
Qed.

Lemma colors_witness :
  in_range 60 120 (float_lit "90") = true
  /\ (5 <= List.length thrust_event)%nat
  /\ pde_of thrust_event sample_time (float_lit "10.5")
       (float_lit "-20.25") (float_lit "33.0") (float_lit "6.0")
  /\ sdr_of thrust_event (float_lit "200") (float_lit "45")
       (float_lit "90")
  /\ (exists c,
        beachball_calls (process_event 0 thrust_event start) = [c]
        /\ call_mechanism c
           = (float_lit "200", float_lit "45", float_lit "90")
        /\ call_facecolor c = red)
  /\ legend_color Thrust = Some blue.
Proof.
  assert (H : in_range 60 120 (float_lit "90") = true) by reflexivity.
  assert (Hlen : (5 <= List.length thrust_event)%nat) by (simpl; lia).
  assert (Hpde : pde_of thrust_event sample_time (float_lit "10.5")
                   (float_lit "-20.25") (float_lit "33.0")
                   (float_lit "6.0")).
  { unfold pde_of. repeat eexists; reflexivity. }
  assert (Hsdr : sdr_of thrust_event (float_lit "200") (float_lit "45")
                   (float_lit "90")).
  { unfold sdr_of. repeat eexists; reflexivity. }
  destruct classifier_colors_differ_from_legend
    as (_ & Hcall & _ & _ & _ & Hlegend & _).
  destruct (Hcall 0%nat thrust_event start sample_time (float_lit "10.5")
              (float_lit "-20.25") (float_lit "33.0") (float_lit "6.0")
              (float_lit "200") (float_lit "45") (float_lit "90")
              Hlen Hpde Hsdr eq_refl)
    as (c & Hcalls & Hmech & _ & _ & _ & Hred & _).
  refine (conj H (conj Hlen (conj Hpde (conj Hsdr (conj _ Hlegend))))).
  exists c. exact (conj Hcalls (conj Hmech (Hred H))).
Defined.


End MoreRuns.

Section FailingRenderer.

Import Sample MoreSamples.

#[local] Existing Instance failing_externals.

Lemma failed_diagram_witness :
  (5 <= List.length thrust_event)%nat
  /\ pde_of thrust_event sample_time (float_lit "10.5")
       (float_lit "-20.25") (float_lit "33.0") (float_lit "6.0")
  /\ sdr_of thrust_event (float_lit "200") (float_lit "45")
       (float_lit "90")
  /\ beachball_raises
       (the_call 0 (float_lit "200") (float_lit "45") (float_lit "90"))
     = true
  /\ emitted
       (InFallback
          (no_fm_point sample_time (float_lit "10.5") (float_lit "-20.25")
             (float_lit "33.0") (float_lit "6.0")))
       start (process_event 0 thrust_event start)
  /\ beachball_calls (process_event 0 thrust_event start)
     = [ the_call 0 (float_lit "200") (float_lit "45") (float_lit "90") ].
Proof.
  assert (Hlen : (5 <= List.length thrust_event)%nat) by (simpl; lia).
  assert (Hpde : pde_of thrust_event sample_time (float_lit "10.5")
                   (float_lit "-20.25") (float_lit "33.0")
                   (float_lit "6.0")).
  { unfold pde_of. repeat eexists; reflexivity. }
  assert (Hsdr : sdr_of thrust_event (float_lit "200") (float_lit "45")
                   (float_lit "90")).
  { unfold sdr_of. repeat eexists; reflexivity. }
  destruct (failed_diagram_goes_to_fallback 0 thrust_event start
              sample_time (float_lit "10.5") (float_lit "-20.25")
              (float_lit "33.0") (float_lit "6.0") (float_lit "200")
              (float_lit "45") (float_lit "90") Hlen Hpde Hsdr
              eq_refl eq_refl) as (Hem & Hcalls).
  exact (conj Hlen (conj Hpde (conj Hsdr (conj eq_refl
           (conj Hem Hcalls))))).
Defined.

End FailingRenderer.
